(** * EchoesInTheCloud: the chat server's session handlers and the client
      reconciler, embedded from the JavaScript sources.

    The server is [server/server.js] in its latest revision (soft delete,
    edit window, read receipts, typing relay, in-memory roster); the client
    is [client/components/Chat.js] in its latest revision (per-subject typing
    timers) together with the earlier revision that has no timer map.

    Conventions of the embedding:
    - a JavaScript string is a [string] holding its UTF-8 bytes; a field
      that may be [undefined] is an [option string];
    - a [Date] is an [option Z]: milliseconds since the epoch, [None] for
      the Invalid Date;
    - the MongoDB collection is the list of its documents in insertion
      order; an [ObjectId] is a [nat]; a query sorted by [time] comes back
      in some ascending order, the order among documents of equal time
      being the store's;
    - the [Map] [onlineUsers] is an association list in insertion order,
      which is the order [Array.from(onlineUsers.values())] observes;
    - every handler returns the new state and the list of emissions in the
      order the handler performs them; an [await] inside a handler is
      collapsed, so a handler runs as one atomic step; the store answers
      every query and update, and rejects a create only on validation;
    - a browser timeout runs its callback when the clock reaches the time
      it is due;
    - what the handlers call but the repository does not define,
      [sanitizeHtml(_, { allowedTags: [] })], [Date.parse] and the store's
      sort, are the fields of the class [Externals]. *)

From Stdlib Require Import ZArith Ascii String List Bool Lia Sorted Permutation.
From stdpp Require Import base option list strings gmap sets fin_maps.

Local Open Scope string_scope.
Local Open Scope Z_scope.

(* ===================================================================== *)
(** * JavaScript values used by the handlers                              *)
(* ===================================================================== *)

Module Js.

(** The white space and line terminators of [String.prototype.trim]
    that fit in one byte: TAB, LF, VT, FF, CR and SP. *)
Definition is_space1 (c : ascii) : bool :=
  let n := nat_of_ascii c in
  ((9 <=? n) && (n <=? 13))%nat || (n =? 32)%nat.

(** The one of two bytes: U+00A0, encoded C2 A0. *)
Definition is_space2 (b0 b1 : nat) : bool :=
  ((b0 =? 194) && (b1 =? 160))%nat.

(** The ones of three bytes: U+1680 (E1 9A 80), U+2000 to U+200A
    (E2 80 80 to E2 80 8A), U+2028 and U+2029 (E2 80 A8, E2 80 A9), U+202F
    (E2 80 AF), U+205F (E2 81 9F), U+3000 (E3 80 80) and U+FEFF
    (EF BB BF). *)
Definition is_space3 (b0 b1 b2 : nat) : bool :=
  (((b0 =? 225) && (b1 =? 154) && (b2 =? 128))
   || ((b0 =? 226) && (b1 =? 128)
       && (((128 <=? b2) && (b2 <=? 138)) || (b2 =? 168) || (b2 =? 169) || (b2 =? 175)))
   || ((b0 =? 226) && (b1 =? 129) && (b2 =? 159))
   || ((b0 =? 227) && (b1 =? 128) && (b2 =? 128))
   || ((b0 =? 239) && (b1 =? 187) && (b2 =? 191)))%nat.

(** The bytes after one white-space character at the head, if the bytes
    start with one. *)
Definition skip_space (l : list ascii) : option (list ascii) :=
  match l with
  | c0 :: r0 =>
      if is_space1 c0 then Some r0
      else
        match r0 with
        | c1 :: r1 =>
            if is_space2 (nat_of_ascii c0) (nat_of_ascii c1) then Some r1
            else
              match r1 with
              | c2 :: r2 =>
                  if is_space3 (nat_of_ascii c0) (nat_of_ascii c1) (nat_of_ascii c2)
                  then Some r2 else None
              | [] => None
              end
        | [] => None
        end
  | [] => None
  end.

(** The bytes are white-space characters from the first to the last.
    The fuel bounds the number of characters. *)
Fixpoint all_space (fuel : nat) (l : list ascii) : bool :=
  match l with
  | [] => true
  | _ :: _ =>
      match fuel with
      | O => false
      | S n => match skip_space l with
               | Some r => all_space n r
               | None => false
               end
      end
  end.

(** Drops the white-space characters at the head. *)
Fixpoint trim_start (fuel : nat) (l : list ascii) : list ascii :=
  match fuel with
  | O => l
  | S n => match skip_space l with
           | Some r => trim_start n r
           | None => l
           end
  end.

(** Drops the white-space characters at the end: the bytes are cut where
    only white space follows. *)
Fixpoint trim_end (l : list ascii) : list ascii :=
  match l with
  | [] => []
  | c :: r => if all_space (length l) l then [] else c :: trim_end r
  end.

(** [s.trim()] *)
Definition trim (s : string) : string :=
  let l := list_ascii_of_string s in
  string_of_list_ascii (trim_end (trim_start (length l) l)).

(** Truthiness of a string: the empty string is falsy. *)
Definition truthy (s : string) : bool :=
  match s with EmptyString => false | _ => true end.

(** [s || d] for a string [s]. *)
Definition or_str (s d : string) : string := if truthy s then s else d.

(** [x || d] for a field [x] that is a string or [undefined]. *)
Definition or_default (x : option string) (d : string) : string :=
  match x with Some s => or_str s d | None => d end.

(** A [Date] object: its time value in milliseconds, [None] when the
    time value is [NaN] (Invalid Date). *)
Definition Date := option Z.

End Js.

(* ===================================================================== *)
(** * The message collection (the Mongoose model [Message])               *)
(* ===================================================================== *)

(** A stored document of [messageSchema]. *)
Record Message := mkMessage {
  _id : nat;
  user : string;
  text : string;
  time : Z;
  deleted : bool;
  edited : bool;
  editTime : option Z;
  readBy : list string
}.

(** What the handlers call and the repository does not define. *)
Class Externals := {
  (** [sanitizeHtml(s, { allowedTags: [] })] of the sanitize-html package *)
  sanitizeHtml : string -> string;
  (** [Date.parse(s)]: the time value, [None] for [NaN] *)
  Date_parse : string -> option Z;
  (** [.sort({ time: 1 })] of the store: the same documents, ascending by
      [time]; nothing more is known of the order among equal times *)
  sort_by_time : list Message -> list Message;
  sort_by_time_permutes : forall l, Permutation (sort_by_time l) l;
  sort_by_time_ascends :
    forall l, StronglySorted (fun a b => time a <= time b) (sort_by_time l)
}.

(** [new Date(s)] for a string [s]. *)
Definition new_Date `{Externals} (s : string) : Js.Date := Date_parse s.

Module Mongoose.

(** The collection and the next [ObjectId] to hand out. *)
Record Collection := mkCollection {
  docs : list Message;
  next_id : nat
}.

(** The outcome of an operation that may reject. *)
Inductive Result (A : Type) :=
| Ok (a : A)
| ValidationError.
Arguments Ok {A} a.
Arguments ValidationError {A}.

(** [required: true] on a [String] path: the empty string fails. *)
Definition checkRequired (s : string) : bool := Js.truthy s.

(** [Message.create({ user, text, time })]: the validators of
    [messageSchema] run ([user] and [text] are required strings, [time]
    is cast to a date and the Invalid Date does not cast); the defaults
    [deleted: false], [edited: false], no [editTime] and an empty
    [readBy] are filled in; the stored document is returned. *)
Definition create (c : Collection) (u t : string) (d : Js.Date)
  : Result (Message * Collection) :=
  match d with
  | Some ms =>
      if checkRequired u && checkRequired t then
        let doc := mkMessage (next_id c) u t ms false false None [] in
        Ok (doc, mkCollection (docs c ++ [doc]) (S (next_id c)))
      else ValidationError
  | None => ValidationError
  end.

(** [Message.findOne({ _id: id })] *)
Definition findOne (id : nat) (l : list Message) : option Message :=
  List.find (fun m => Nat.eqb (_id m) id) l.

(** [Message.updateOne({ _id: id }, upd)]: the first document with this
    id is replaced by its update, nothing happens without a match. *)
Fixpoint updateOne (id : nat) (upd : Message -> Message) (l : list Message)
  : list Message :=
  match l with
  | [] => []
  | m :: r => if Nat.eqb (_id m) id then upd m :: r else m :: updateOne id upd r
  end.

(** [Message.find({ deleted: false }).sort({ time: 1 }).limit(n)] *)
Definition find_active `{Externals} (n : nat) (l : list Message) : list Message :=
  take n (sort_by_time (List.filter (fun m => negb (deleted m)) l)).

(** The three update documents of the handlers. *)
Definition set_deleted (m : Message) : Message :=
  mkMessage (_id m) (user m) (text m) (time m) true (edited m) (editTime m) (readBy m).

Definition set_edit (newText : string) (at_ : Z) (m : Message) : Message :=
  mkMessage (_id m) (user m) newText (time m) (deleted m) true (Some at_) (readBy m).

(** [{ $addToSet: { readBy: username } }] *)
Definition addToSet_readBy (username : string) (m : Message) : Message :=
  mkMessage (_id m) (user m) (text m) (time m) (deleted m) (edited m) (editTime m)
    (if existsb (String.eqb username) (readBy m) then readBy m
     else readBy m ++ [username]).

End Mongoose.

(* ===================================================================== *)
(** * The server: [io.on('connection', ...)] and its listeners            *)
(* ===================================================================== *)

Module Server.

(** [socket.id] *)
Definition SocketId := string.

(** ** The [Map] [onlineUsers] : socket.id -> username *)

Definition Roster := list (SocketId * string).

(** [onlineUsers.set(k, v)]: an existing key keeps its position. *)
Fixpoint Map_set (k : SocketId) (v : string) (m : Roster) : Roster :=
  match m with
  | [] => [(k, v)]
  | (k', v') :: r =>
      if String.eqb k' k then (k', v) :: r else (k', v') :: Map_set k v r
  end.

(** [onlineUsers.get(k)] *)
Fixpoint Map_get (k : SocketId) (m : Roster) : option string :=
  match m with
  | [] => None
  | (k', v') :: r => if String.eqb k' k then Some v' else Map_get k r
  end.

(** [onlineUsers.delete(k)] *)
Definition Map_delete (k : SocketId) (m : Roster) : Roster :=
  List.filter (fun kv => negb (String.eqb (fst kv) k)) m.

(** [Array.from(onlineUsers.values())] *)
Definition Map_values (m : Roster) : list string := List.map snd m.

(** ** What the server sends *)

(** The three ways a listener emits. *)
Inductive Audience :=
| socket_emit (sid : SocketId)            (* socket.emit: this connection only *)
| io_emit                                 (* io.emit: every connection *)
| socket_broadcast_emit (sid : SocketId). (* socket.broadcast.emit: all but this one *)

(** The outbound events with their payloads. *)
Inductive Outbound :=
| message_history (history : list Message)
| room_users (names : list string)
| message (doc : Message)
| delete_message (messageId : nat)
| edit_message (messageId : nat) (newText : string) (editTime : Z)
| message_read (messageId : nat) (username : string)
| typing (user_ : string) (at_ : Z).

Definition Emission := (Audience * Outbound)%type.

(** The connections an emission reaches, among the live ones. *)
Definition recipients (a : Audience) (live : list SocketId) : list SocketId :=
  match a with
  | socket_emit sid => List.filter (String.eqb sid) live
  | io_emit => live
  | socket_broadcast_emit sid => List.filter (fun c => negb (String.eqb sid c)) live
  end.

Definition is_typing (e : Emission) : bool :=
  match snd e with typing _ _ => true | _ => false end.

Definition is_message (e : Emission) : bool :=
  match snd e with message _ => true | _ => false end.

(** ** The state the listeners share *)

Record State := mkState {
  onlineUsers : Roster;
  Messages : Mongoose.Collection
}.

(** The payload of a [message] event as the client builds it:
    [{ user, text, time }], each field a string or missing. *)
Record MessagePayload := mkPayload {
  msg_user : option string;
  msg_text : option string;
  msg_time : option string
}.

(** The name a listener acts under:
    [onlineUsers.get(socket.id) || 'Anonymous']. *)
Definition username_of (st : State) (sid : SocketId) : string :=
  Js.or_default (Map_get sid (onlineUsers st)) "Anonymous".

Section Handlers.
Context `{Externals}.

(** [io.on('connection', async (socket) => ...)]: the default name is
    registered, the history is sent, the listeners are installed and
    the current roster is sent to the new socket. *)
Definition on_connection (st : State) (sid : SocketId) : State * list Emission :=
  let users := Map_set sid "Anonymous" (onlineUsers st) in
  let history := Mongoose.find_active 500 (Mongoose.docs (Messages st)) in
  (mkState users (Messages st),
   [ (socket_emit sid, message_history history);
     (socket_emit sid, room_users (Map_values users)) ]).

(** [socket.on('set-username', (username) => ...)] *)
Definition on_set_username (st : State) (sid : SocketId) (username : option string)
  : State * list Emission :=
  let cleanName :=
    sanitizeHtml (Js.or_default (option_map Js.trim username) "Anonymous") in
  let users := Map_set sid cleanName (onlineUsers st) in
  (mkState users (Messages st), [ (io_emit, room_users (Map_values users)) ]).

(** [msg.time ? new Date(msg.time) : new Date()] *)
Definition message_time (t : option string) (now : Z) : Js.Date :=
  match t with
  | Some s => if Js.truthy s then new_Date s else Some now
  | None => Some now
  end.

(** [socket.on('message', async (msg) => ...)]: the roster entry is
    written before the document is created; a rejected create lands in
    the [catch], which only logs. *)
Definition on_message (st : State) (sid : SocketId) (msg : MessagePayload) (now : Z)
  : State * list Emission :=
  let username :=
    sanitizeHtml (Js.or_str (Js.trim (Js.or_default (msg_user msg) "Anonymous"))
                    "Anonymous") in
  let users := Map_set sid username (onlineUsers st) in
  match Mongoose.create (Messages st) username
          (sanitizeHtml (Js.or_default (msg_text msg) ""))
          (message_time (msg_time msg) now) with
  | Mongoose.Ok (doc, coll) =>
      (mkState users coll,
       [ (io_emit, message doc); (io_emit, room_users (Map_values users)) ])
  | Mongoose.ValidationError => (mkState users (Messages st), [])
  end.

(** [socket.on('delete-message', async (messageId) => ...)] *)
Definition on_delete_message (st : State) (sid : SocketId) (messageId : nat)
  : State * list Emission :=
  let username := username_of st sid in
  match Mongoose.findOne messageId (Mongoose.docs (Messages st)) with
  | Some m =>
      if String.eqb (user m) username then
        (mkState (onlineUsers st)
           (Mongoose.mkCollection
              (Mongoose.updateOne messageId Mongoose.set_deleted
                 (Mongoose.docs (Messages st)))
              (Mongoose.next_id (Messages st))),
         [ (io_emit, delete_message messageId) ])
      else (st, [])
  | None => (st, [])
  end.

(** [socket.on('edit-message', async (data) => ...)]. The listener reads
    the clock three times: [Date.now()] for the five-minute test,
    [new Date()] for the stored [editTime] and [new Date()] for the
    broadcast. *)
Definition on_edit_message (st : State) (sid : SocketId)
    (messageId : nat) (newText : string) (now now_stored now_sent : Z)
  : State * list Emission :=
  let username := username_of st sid in
  match Mongoose.findOne messageId (Mongoose.docs (Messages st)) with
  | Some m =>
      if String.eqb (user m) username then
        let fiveMinutesAgo := now - 5 * 60 * 1000 in
        if match editTime m with
           | None => true
           | Some t => t <? fiveMinutesAgo
           end
        then
          (mkState (onlineUsers st)
             (Mongoose.mkCollection
                (Mongoose.updateOne messageId
                   (Mongoose.set_edit (sanitizeHtml newText) now_stored)
                   (Mongoose.docs (Messages st)))
                (Mongoose.next_id (Messages st))),
           [ (io_emit, edit_message messageId newText now_sent) ])
        else (st, [])
      else (st, [])
  | None => (st, [])
  end.

(** [socket.on('message-read', async (messageId) => ...)] *)
Definition on_message_read (st : State) (sid : SocketId) (messageId : nat)
  : State * list Emission :=
  let username := username_of st sid in
  match Mongoose.findOne messageId (Mongoose.docs (Messages st)) with
  | Some m =>
      if negb (existsb (String.eqb username) (readBy m)) then
        (mkState (onlineUsers st)
           (Mongoose.mkCollection
              (Mongoose.updateOne messageId (Mongoose.addToSet_readBy username)
                 (Mongoose.docs (Messages st)))
              (Mongoose.next_id (Messages st))),
         [ (io_emit, message_read messageId username) ])
      else (st, [])
  | None => (st, [])
  end.

(** [socket.on('typing', (payload = {}) => ...)] *)
Definition on_typing (st : State) (sid : SocketId) (payload_user : option string)
    (now : Z) : State * list Emission :=
  let who :=
    sanitizeHtml (Js.or_str (Js.trim (Js.or_default payload_user "Someone"))
                    "Someone") in
  let users := Map_set sid who (onlineUsers st) in
  (mkState users (Messages st),
   [ (socket_broadcast_emit sid, typing who now);
     (io_emit, room_users (Map_values users)) ]).

(** [socket.on('disconnect', (reason) => ...)] *)
Definition on_disconnect (st : State) (sid : SocketId) : State * list Emission :=
  let users := Map_delete sid (onlineUsers st) in
  (mkState users (Messages st), [ (io_emit, room_users (Map_values users)) ]).

(** [app.get('/messages', ...)]: the JSON body of the response. *)
Definition get_messages (st : State) : list Message :=
  Mongoose.find_active 500 (Mongoose.docs (Messages st)).

(** ** The server as a transition system *)

(** What a connection can make the server do, with the clock readings
    the listener takes. *)
Inductive Inbound :=
| In_connection
| In_set_username (username : option string)
| In_message (msg : MessagePayload) (now : Z)
| In_delete_message (messageId : nat)
| In_edit_message (messageId : nat) (newText : string) (now now_stored now_sent : Z)
| In_message_read (messageId : nat)
| In_typing (payload_user : option string) (now : Z)
| In_disconnect.

Definition step (st : State) (ev : SocketId * Inbound) : State * list Emission :=
  let sid := fst ev in
  match snd ev with
  | In_connection => on_connection st sid
  | In_set_username u => on_set_username st sid u
  | In_message msg now => on_message st sid msg now
  | In_delete_message id => on_delete_message st sid id
  | In_edit_message id t n1 n2 n3 => on_edit_message st sid id t n1 n2 n3
  | In_message_read id => on_message_read st sid id
  | In_typing u now => on_typing st sid u now
  | In_disconnect => on_disconnect st sid
  end.

(** The state after a sequence of events. *)
Definition run (st : State) (evs : list (SocketId * Inbound)) : State :=
  fold_left (fun s ev => fst (step s ev)) evs st.

(** The server before any connection: no user, an empty collection. *)
Definition initial : State := mkState [] (Mongoose.mkCollection [] 0).

End Handlers.

(** The documents are what [Message.create] made of them: ids are below
    the next id and pairwise distinct, and no reader is listed twice. *)
Definition wf_collection (c : Mongoose.Collection) : Prop :=
  NoDup (List.map _id (Mongoose.docs c)) /\
  Forall (fun m => (_id m < Mongoose.next_id c)%nat /\ NoDup (readBy m)) (Mongoose.docs c).

End Server.

(* ===================================================================== *)
(** * The earlier server revision with two [typing] listeners             *)
(* ===================================================================== *)

Module EarlyServer.

(** What the two listeners send: the first builds [{ user, at }], the
    second forwards the payload it received as it is. *)
Inductive Outbound :=
| typing (user_ : string) (at_ : Z)
| typing_forwarded (payload_user : option string).

Definition Emission := (Server.Audience * Outbound)%type.

(** [socket.on('typing', (payload = {}) => ...)], registered first. *)
Definition typing_listener_1 (sid : Server.SocketId) (payload_user : option string)
    (now : Z) : list Emission :=
  let who := Js.or_str (Js.trim (Js.or_default payload_user "Someone")) "Someone" in
  [ (Server.socket_broadcast_emit sid, typing who now) ].

(** [socket.on('typing', (username) => ...)], registered second on the
    same socket. *)
Definition typing_listener_2 (sid : Server.SocketId) (payload_user : option string)
  : list Emission :=
  [ (Server.socket_broadcast_emit sid, typing_forwarded payload_user) ].

(** One inbound [typing] event runs every listener registered for it, in
    the order of registration. *)
Definition on_typing (sid : Server.SocketId) (payload_user : option string) (now : Z)
  : list Emission :=
  typing_listener_1 sid payload_user now ++ typing_listener_2 sid payload_user.

(** ** The [message] listener of this revision *)

(** What the [message] listener sends. *)
Inductive MessageOutbound :=
| message (doc : Message)
| message_error (error : string).

Section Handlers.
Context `{Externals}.

(** [socket.on('message', async (msg) => ...)]: the name is trimmed and
    defaulted, the text is taken as it is, nothing is sanitized; a
    rejected create lands in the [catch], which tells the sender alone. *)
Definition on_message (coll : Mongoose.Collection) (sid : Server.SocketId)
    (msg : Server.MessagePayload) (now : Z)
  : Mongoose.Collection * list (Server.Audience * MessageOutbound) :=
  match Mongoose.create coll
          (Js.or_str (Js.trim (Js.or_default (Server.msg_user msg) "Anonymous"))
             "Anonymous")
          (Js.or_default (Server.msg_text msg) "")
          (Server.message_time (Server.msg_time msg) now) with
  | Mongoose.Ok (doc, coll') => (coll', [ (Server.io_emit, message doc) ])
  | Mongoose.ValidationError =>
      (coll, [ (Server.socket_emit sid, message_error "Failed to save message") ])
  end.

End Handlers.

End EarlyServer.

(* ===================================================================== *)
(** * The client: the [Chat] component                                    *)
(* ===================================================================== *)

Module Client.

(** The variables of the render that the socket listeners closed over.
    The effect that installs the listeners has the dependency list [[]]:
    it runs after the first render only, so the listeners keep reading
    the [isAtBottom] and [name] of that render. *)
Record Closure := mkClosure {
  seen_isAtBottom : bool;
  seen_name : string
}.

Record State := mkState {
  mounted : bool;
  messages : list Message;
  name : string;
  isAtBottom : bool;
  unseenCount : nat;
  typingUsers : gset string;
  (** [typingTimersRef.current]: username -> timeout id *)
  typingTimers : gmap string nat;
  (** [scrollRef.current] is attached *)
  scrollRef : bool;
  (** the closure of the socket listeners *)
  listeners : Closure;
  (** the browser's pending [setTimeout] callbacks of the typing
      listener: timeout id -> (time due, username to clear) *)
  timeouts : gmap nat (Z * string);
  next_timeout : nat;
  (** [requestAnimationFrame] callbacks queued by [message-history] *)
  frames : nat
}.

Definition with_messages (l : list Message) (c : State) : State :=
  mkState (mounted c) l (name c) (isAtBottom c) (unseenCount c) (typingUsers c)
    (typingTimers c) (scrollRef c) (listeners c) (timeouts c) (next_timeout c) (frames c).

Definition with_isAtBottom (b : bool) (c : State) : State :=
  mkState (mounted c) (messages c) (name c) b (unseenCount c) (typingUsers c)
    (typingTimers c) (scrollRef c) (listeners c) (timeouts c) (next_timeout c) (frames c).

Definition with_unseenCount (n : nat) (c : State) : State :=
  mkState (mounted c) (messages c) (name c) (isAtBottom c) n (typingUsers c)
    (typingTimers c) (scrollRef c) (listeners c) (timeouts c) (next_timeout c) (frames c).

Definition with_name (s : string) (c : State) : State :=
  mkState (mounted c) (messages c) s (isAtBottom c) (unseenCount c) (typingUsers c)
    (typingTimers c) (scrollRef c) (listeners c) (timeouts c) (next_timeout c) (frames c).

Definition with_frames (n : nat) (c : State) : State :=
  mkState (mounted c) (messages c) (name c) (isAtBottom c) (unseenCount c) (typingUsers c)
    (typingTimers c) (scrollRef c) (listeners c) (timeouts c) (next_timeout c) n.

Definition with_typing (u : gset string) (tt : gmap string nat)
    (to : gmap nat (Z * string)) (nx : nat) (c : State) : State :=
  mkState (mounted c) (messages c) (name c) (isAtBottom c) (unseenCount c) u
    tt (scrollRef c) (listeners c) to nx (frames c).

(** The component after its first render and the run of the socket
    effect: the [useState] initial values, and listeners that closed over
    them. *)
Definition mount : State :=
  mkState true [] "" true 0 ∅ ∅ true (mkClosure true "") ∅ 0 0.

(** The effect with dependencies [[messages, isAtBottom]]: follow the
    newest message when the view is at the bottom. *)
Definition auto_scroll (c : State) : State :=
  if scrollRef c && isAtBottom c then with_unseenCount 0 c else c.

(** [socket.on('message-history', (history) => ...)]: the messages are
    replaced at once; the scroll to the end, [setIsAtBottom(true)] and
    [setUnseenCount(0)] wait for the next animation frame. *)
Definition on_message_history (history : option (list Message)) (c : State) : State :=
  if negb (mounted c) then c
  else auto_scroll (with_frames (S (frames c))
                      (with_messages (default [] history) c)).

(** The queued animation-frame callbacks run. *)
Definition animation_frame (c : State) : State :=
  match frames c with
  | O => c
  | S _ =>
      if scrollRef c
      then auto_scroll (with_unseenCount 0 (with_isAtBottom true (with_frames 0 c)))
      else with_frames 0 c
  end.

(** [socket.on('message', (msg) => ...)]: [isAtBottom] is the variable of
    the closure. *)
Definition on_message (msg : Message) (c : State) : State :=
  if negb (mounted c) then c
  else
    let c1 := with_messages (messages c ++ [msg]) c in
    let c2 := if negb (seen_isAtBottom (listeners c))
              then with_unseenCount (S (unseenCount c1)) c1 else c1 in
    auto_scroll c2.

(** [handleScroll], installed by an effect with dependencies
    [[isAtBottom]], so it reads the current [isAtBottom]. *)
Definition handleScroll (scrollHeight scrollTop clientHeight : Z) (c : State) : State :=
  let threshold := 60 in
  let atBottom := scrollHeight - scrollTop - clientHeight <? threshold in
  let c1 := if negb (Bool.eqb atBottom (isAtBottom c))
            then with_isAtBottom atBottom c else c in
  let c2 := if atBottom then with_unseenCount 0 c1 else c1 in
  if negb (Bool.eqb atBottom (isAtBottom c)) then auto_scroll c2 else c2.

(** The [onClick] of the "new messages" pill. *)
Definition jump_to_newest (c : State) : State :=
  if negb (scrollRef c) then c else with_unseenCount 0 c.

(** [onChange] of the name input: [setName(e.target.value)]. *)
Definition setName (s : string) (c : State) : State := with_name s c.

(** The name a typing event shows under:
    [(payload.user || 'Someone').trim() || 'Someone']. *)
Definition typing_subject (payload_user : option string) : string :=
  Js.or_str (Js.trim (Js.or_default payload_user "Someone")) "Someone".

(** The name the typing listener takes for the user's own:
    [name || 'Anonymous'], with the [name] of the closure. *)
Definition self_name (c : State) : string :=
  Js.or_str (seen_name (listeners c)) "Anonymous".

(** [socket.on('typing', (payload = {}) => ...)] at clock reading [now]:
    the subject joins [typingUsers], its pending timeout is cleared, a
    new one is started for 2000 ms and recorded in the timer map. *)
Definition on_typing (payload_user : option string) (now : Z) (c : State) : State :=
  if negb (mounted c) then c
  else
    let who := typing_subject payload_user in
    if String.eqb who (self_name c) then c
    else
      let cleared :=
        match typingTimers c !! who with
        | Some t => delete t (timeouts c)
        | None => timeouts c
        end in
      let t := next_timeout c in
      with_typing ({[who]} ∪ typingUsers c)
        (<[who := t]> (typingTimers c))
        (<[t := (now + 2000, who)]> cleared)
        (S t) c.

(** The callback of a timeout of the typing listener for [who]. *)
Definition typing_timeout (who : string) (c : State) : State :=
  with_typing (typingUsers c ∖ {[who]}) (delete who (typingTimers c))
    (timeouts c) (next_timeout c) c.

Definition is_due (t : Z) (entry : nat * (Z * string)) : bool :=
  fst (snd entry) <=? t.

(** The clock reaches [t] with no event in between: every timeout due by
    then has run its callback and is gone from the browser's table. *)
Definition advance (t : Z) (c : State) : State :=
  let due := List.filter (is_due t) (map_to_list (timeouts c)) in
  let rest := filter (fun e : nat * (Z * string) => ¬ is_due t e) (timeouts c) in
  foldr (fun e acc => typing_timeout (snd (snd e)) acc)
    (with_typing (typingUsers c) (typingTimers c) rest (next_timeout c) c) due.

(** Every pending timeout is the one the timer map holds for its
    subject, and timeout ids are below the next id. *)
Definition wf (c : State) : Prop :=
  forall (t : nat) (due : Z) (who : string),
    timeouts c !! t = Some (due, who) ->
    typingTimers c !! who = Some t /\ (t < next_timeout c)%nat.

(** What happens to the component. *)
Inductive Event :=
| Ev_message_history (history : option (list Message))
| Ev_message (msg : Message)
| Ev_typing (payload_user : option string) (now : Z)
| Ev_scroll (scrollHeight scrollTop clientHeight : Z)
| Ev_animation_frame
| Ev_jump
| Ev_setName (s : string)
| Ev_clock (t : Z).

Definition step (c : State) (e : Event) : State :=
  match e with
  | Ev_message_history h => on_message_history h c
  | Ev_message m => on_message m c
  | Ev_typing u now => on_typing u now c
  | Ev_scroll sh st ch => handleScroll sh st ch c
  | Ev_animation_frame => animation_frame c
  | Ev_jump => jump_to_newest c
  | Ev_setName s => setName s c
  | Ev_clock t => advance t c
  end.

Definition run (c : State) (evs : list Event) : State := fold_left step evs c.

(** ** The rest of the component *)

(** The live messages [ms] arrive one after the other. *)
Definition receive_all (ms : list Message) (c : State) : State :=
  fold_left (fun acc m => on_message m acc) ms c.

(** The cleanup of the socket effect: the listeners stop, every timeout
    recorded in the timer map is cleared and the map is emptied. *)
Definition unmount (c : State) : State :=
  mkState false (messages c) (name c) (isAtBottom c) (unseenCount c) (typingUsers c)
    ∅ (scrollRef c) (listeners c)
    (foldr (fun e acc => delete (snd e) acc) (timeouts c)
       (map_to_list (typingTimers c)))
    (next_timeout c) (frames c).

(** What [sendMessage] does with the composed text. *)
Inductive Sent :=
| not_sent
| emitted (msg : Server.MessagePayload)
| local_echo (msg : Server.MessagePayload) (local_id : string).

(** [sendMessage(e)] for the current [name] and [text]: blank text is
    not sent; otherwise the message is emitted when the socket is
    connected and appended to the local view only, under [local_id], when
    it is not. [iso_now] is [new Date().toISOString()]. *)
Definition sendMessage (connected : bool) (name_ text_ iso_now local_id : string) : Sent :=
  if negb (Js.truthy (Js.trim text_)) then not_sent
  else
    let msg :=
      Server.mkPayload (Some (Js.or_str (Js.trim name_) "Anonymous"))
        (Some (Js.trim text_)) (Some iso_now) in
    if connected then emitted msg else local_echo msg local_id.

(** The effect on [[text, name]]: the payload of the [typing] event the
    client emits, if it emits one. *)
Definition typing_effect (connected : bool) (name_ text_ : string) : option string :=
  if negb connected then None
  else if (String.length (Js.trim text_) =? 0)%nat then None
  else Some (Js.or_str (Js.trim name_) "Anonymous").

End Client.

(* ===================================================================== *)
(** * The earlier client revision: no timer map                           *)
(* ===================================================================== *)

Module EarlyClient.

(** The effect that installs the listeners has the dependency list
    [[isAtBottom]]: the listeners are re-installed whenever [isAtBottom]
    changes, so they read its current value. *)
Record State := mkState {
  mounted : bool;
  messages : list Message;
  isAtBottom : bool;
  unseenCount : nat;
  typingUsers : gset string;
  (** [scrollRef.current] is attached *)
  scrollRef : bool;
  (** pending [setTimeout] callbacks: (time due, username to clear) *)
  timeouts : list (Z * string)
}.

Definition mount : State := mkState true [] true 0 ∅ true [].

(** The effect with dependencies [[messages, isAtBottom]]. *)
Definition auto_scroll (c : State) : State :=
  if scrollRef c && isAtBottom c
  then mkState (mounted c) (messages c) (isAtBottom c) 0 (typingUsers c)
         (scrollRef c) (timeouts c)
  else c.

(** [socket.on('message-history', (history) => ...)] *)
Definition on_message_history (history : option (list Message)) (c : State) : State :=
  if negb (mounted c) then c
  else
    auto_scroll
      (mkState (mounted c) (default [] history) (isAtBottom c) (unseenCount c)
         (typingUsers c) (scrollRef c) (timeouts c)).

(** [socket.on('message', (msg) => ...)] *)
Definition on_message (msg : Message) (c : State) : State :=
  if negb (mounted c) then c
  else
    auto_scroll
      (mkState (mounted c) (messages c ++ [msg]) (isAtBottom c)
         (if negb (isAtBottom c) then S (unseenCount c) else unseenCount c)
         (typingUsers c) (scrollRef c) (timeouts c)).

(** [socket.on?.('typing', (payload = {}) => ...)]: the subject is added
    and one more timeout is started; nothing is cleared. *)
Definition on_typing (payload_user : option string) (now : Z) (c : State) : State :=
  if negb (mounted c) then c
  else
    let who := Js.trim (Js.or_default payload_user "Someone") in
    mkState (mounted c) (messages c) (isAtBottom c) (unseenCount c)
      ({[who]} ∪ typingUsers c) (scrollRef c)
      (timeouts c ++ [(now + 2000, who)]).

(** The clock reaches [t]: the callbacks due by then have run. *)
Definition advance (t : Z) (c : State) : State :=
  let due := List.filter (fun e => fst e <=? t) (timeouts c) in
  mkState (mounted c) (messages c) (isAtBottom c) (unseenCount c)
    (foldr (fun e acc => acc ∖ {[snd e]}) (typingUsers c) due)
    (scrollRef c)
    (List.filter (fun e => negb (fst e <=? t)) (timeouts c)).

(** [handleScroll] of this revision. *)
Definition handleScroll (scrollHeight scrollTop clientHeight : Z) (c : State) : State :=
  let threshold := 60 in
  let atBottom := scrollHeight - scrollTop - clientHeight <? threshold in
  auto_scroll
    (mkState (mounted c) (messages c) atBottom
       (if atBottom then 0%nat else unseenCount c)
       (typingUsers c) (scrollRef c) (timeouts c)).

(** The [onClick] of the "new messages" pill. *)
Definition jump_to_newest (c : State) : State :=
  if negb (scrollRef c) then c
  else mkState (mounted c) (messages c) (isAtBottom c) 0 (typingUsers c)
         (scrollRef c) (timeouts c).

(** The live messages [ms] arrive one after the other. *)
Definition receive_all (ms : list Message) (c : State) : State :=
  fold_left (fun acc m => on_message m acc) ms c.

End EarlyClient.

(* ===================================================================== *)
(** * Stand-ins for the library functions, for the closed examples        *)
(* ===================================================================== *)

Module Standin.

(** Drops every tag, from a ['<'] to the next ['>']. On text without
    ['<'], ['>'] and ['&'] this is what sanitize-html returns with
    [allowedTags: []]: the text itself. *)
Fixpoint strip_tags (inside : bool) (s : string) : string :=
  match s with
  | EmptyString => EmptyString
  | String c r =>
      if inside then strip_tags (negb (Ascii.eqb c ">")) r
      else if Ascii.eqb c "<" then strip_tags true r
      else String c (strip_tags false r)
  end.

Definition digit (c : ascii) : option Z :=
  let n := Z.of_nat (nat_of_ascii c) in
  if (48 <=? n) && (n <=? 57) then Some (n - 48) else None.

(** The number written by a list of decimal digits. *)
Fixpoint number (acc : Z) (l : list ascii) : option Z :=
  match l with
  | [] => Some acc
  | c :: r => match digit c with Some d => number (10 * acc + d) r | None => None end
  end.

Definition leap (y : Z) : bool :=
  ((y mod 4 =? 0) && negb (y mod 100 =? 0)) || (y mod 400 =? 0).

Definition days_in_month (y m : Z) : Z :=
  if m =? 2 then (if leap y then 29 else 28)
  else if (m =? 4) || (m =? 6) || (m =? 9) || (m =? 11) then 30 else 31.

(** Days from 1970-01-01 to the civil date [y]-[m]-[d]. *)
Definition days_from_civil (y m d : Z) : Z :=
  let y' := if m <=? 2 then y - 1 else y in
  let era := y' / 400 in
  let yoe := y' - era * 400 in
  let doy := (153 * (if 2 <? m then m - 3 else m + 9) + 2) / 5 + d - 1 in
  let doe := yoe * 365 + yoe / 4 - yoe / 100 + doy in
  era * 146097 + doe - 719468.

(** The format [Date.prototype.toISOString] writes and the client sends:
    [YYYY-MM-DDTHH:mm:ss.sssZ]. Any other string is no date here. *)
Definition iso_parse (s : string) : option Z :=
  match list_ascii_of_string s with
  | [y1; y2; y3; y4; "-"; m1; m2; "-"; d1; d2; "T";
     h1; h2; ":"; i1; i2; ":"; s1; s2; "."; f1; f2; f3; "Z"]%char =>
      match number 0 [y1; y2; y3; y4], number 0 [m1; m2], number 0 [d1; d2],
            number 0 [h1; h2], number 0 [i1; i2], number 0 [s1; s2],
            number 0 [f1; f2; f3] with
      | Some y, Some m, Some d, Some h, Some i, Some sec, Some ms =>
          if (1 <=? m) && (m <=? 12) && (1 <=? d) && (d <=? days_in_month y m)
             && (h <? 24) && (i <? 60) && (sec <? 60)
          then Some ((((days_from_civil y m d * 24 + h) * 60 + i) * 60 + sec) * 1000 + ms)
          else None
      | _, _, _, _, _, _, _ => None
      end
  | _ => None
  end.

(** One sort the store may use: insertion by [time], documents of equal
    time in the order of insertion. *)
Fixpoint insert_sorted (m : Message) (l : list Message) : list Message :=
  match l with
  | [] => [m]
  | x :: r => if time m <? time x then m :: x :: r else x :: insert_sorted m r
  end.

Definition insertion_sort (l : list Message) : list Message :=
  fold_left (fun acc m => insert_sorted m acc) l [].

Definition externals : Externals.
Proof.
  refine {| sanitizeHtml := strip_tags false;
            Date_parse := iso_parse;
            sort_by_time := insertion_sort |}.
  - assert (forall m l, Permutation (insert_sorted m l) (m :: l)) as Hins.
    { intros m l. induction l as [|x r IH]; simpl; [reflexivity|].
      destruct (time m <? time x); [reflexivity|].
      rewrite IH. apply perm_swap. }
    assert (forall l acc,
              Permutation (fold_left (fun a m => insert_sorted m a) l acc) (acc ++ l))
      as Hgen.
    { induction l as [|x r IH]; intros acc; simpl.
      - rewrite app_nil_r. reflexivity.
      - rewrite IH, Hins. apply Permutation_middle. }
    intros l. apply (Hgen l []).
  - assert (forall m l,
              StronglySorted (fun a b => time a <= time b) l ->
              StronglySorted (fun a b => time a <= time b) (insert_sorted m l)) as Hins.
    { intros m l Hs. induction Hs as [|x r Hr IH Hx]; simpl.
      - constructor; constructor.
      - destruct (time m <? time x) eqn:E.
        + apply Z.ltb_lt in E. constructor; [constructor; assumption|].
          constructor; [lia|]. eapply Forall_impl; [exact Hx|]. simpl. intros; lia.
        + apply Z.ltb_ge in E. constructor; [exact IH|].
          assert (Permutation (insert_sorted m r) (m :: r)) as Hp.
          { clear. induction r as [|y r IH]; simpl; [reflexivity|].
            destruct (time m <? time y); [reflexivity|]. rewrite IH. apply perm_swap. }
          rewrite Hp. constructor; [exact E | exact Hx]. }
    assert (forall l acc,
              StronglySorted (fun a b => time a <= time b) acc ->
              StronglySorted (fun a b => time a <= time b)
                (fold_left (fun a m => insert_sorted m a) l acc)) as Hgen.
    { induction l as [|x r IH]; intros acc Hacc; simpl; [exact Hacc|].
      apply IH, Hins, Hacc. }
    intros l. apply Hgen. constructor.
Defined.

End Standin.

(* ===================================================================== *)
(** * Vocabulary of the statements                                        *)
(* ===================================================================== *)

Section CollectionVocabulary.

Import Mongoose.

(** An update document of the handlers never touches [_id]. *)
Definition keeps_id (f : Message -> Message) : Prop := forall m, _id (f m) = _id m.

(** A document is a tombstone when a lookup by id finds it deleted. *)
Definition tombstoned (id : nat) (l : list Message) : Prop :=
  exists m, findOne id l = Some m /\ deleted m = true.

End CollectionVocabulary.

Section ServerVocabulary.
Context `{Externals}.

Import Server.

(** The state after a successful [delete-message] for [messageId]. *)
Definition after_delete (st : State) (messageId : nat) : State :=
  mkState (onlineUsers st)
    (Mongoose.mkCollection
       (Mongoose.updateOne messageId Mongoose.set_deleted (Mongoose.docs (Messages st)))
       (Mongoose.next_id (Messages st))).

(** The edit of [m] is inside the cool-down at clock reading [now]. *)
Definition in_cooldown (m : Message) (now : Z) : Prop :=
  exists t, editTime m = Some t /\ now - t <= 5 * 60 * 1000.

(** The state after a successful [edit-message]. *)
Definition after_edit (st : State) (messageId : nat) (newText : string) (at_ : Z)
  : State :=
  mkState (onlineUsers st)
    (Mongoose.mkCollection
       (Mongoose.updateOne messageId (Mongoose.set_edit (sanitizeHtml newText) at_)
          (Mongoose.docs (Messages st)))
       (Mongoose.next_id (Messages st))).

(** The state after a [message-read] that added the reader. *)
Definition after_read (st : State) (sid : SocketId) (messageId : nat) : State :=
  mkState (onlineUsers st)
    (Mongoose.mkCollection
       (Mongoose.updateOne messageId (Mongoose.addToSet_readBy (username_of st sid))
          (Mongoose.docs (Messages st)))
       (Mongoose.next_id (Messages st))).

(** The outcome of [on_message] stores and broadcasts [doc]. *)
Definition appends (st : State) (r : State * list Emission) (doc : Message) : Prop :=
  Mongoose.docs (Messages (fst r)) = (Mongoose.docs (Messages st) ++ [doc])%list
  /\ In (io_emit, message doc) (snd r).

(** The outcome of [on_message] stores and broadcasts a document whose
    [time] is [t]. *)
Definition stores_with_time (st : State) (r : State * list Emission) (t : Z) : Prop :=
  exists doc, appends st r doc /\ time doc = t.

(** The three sends a new connection would cause if the roster went to
    the newcomer first, the history second and the roster to everyone
    last. *)
Definition roster_history_broadcast (st : State) (sid : SocketId) : list Emission :=
  let users := Map_set sid "Anonymous" (onlineUsers st) in
  [ (socket_emit sid, room_users (Map_values users));
    (socket_emit sid,
     message_history (Mongoose.find_active 500 (Mongoose.docs (Messages st))));
    (io_emit, room_users (Map_values users)) ].

(** The name [on_message] stores the message under. *)
Definition message_username (msg : MessagePayload) : string :=
  sanitizeHtml (Js.or_str (Js.trim (Js.or_default (msg_user msg) "Anonymous"))
                  "Anonymous").

(** The text [on_message] stores. *)
Definition message_text (msg : MessagePayload) : string :=
  sanitizeHtml (Js.or_default (msg_text msg) "").

End ServerVocabulary.

(** The text consists of white-space characters only (or is empty). *)
Definition blank (s : string) : Prop :=
  Js.all_space (length (list_ascii_of_string s)) (list_ascii_of_string s) = true.

(** The typing tables of the client agree: every pending timeout is the
    one the timer map holds for its subject, every entry of the timer map
    has its pending timeout, and everybody shown as typing has one. *)
Definition coherent (c : Client.State) : Prop :=
  Client.wf c
  /\ (forall (who : string) (t : nat),
        Client.typingTimers c !! who = Some t ->
        exists due, Client.timeouts c !! t = Some (due, who))
  /\ (forall who : string,
        who ∈ Client.typingUsers c ->
        exists (t : nat) (due : Z), Client.timeouts c !! t = Some (due, who)).

(** A socket event of the client, as opposed to a scroll, a click or the
    clock. *)
Definition socket_event (e : Client.Event) : Prop :=
  match e with
  | Client.Ev_message_history _ | Client.Ev_message _ | Client.Ev_typing _ _ => True
  | _ => False
  end.

(** Concrete rooms for the closed examples. *)
Module Scenario.

(** Alice's message, as created. *)
Definition hello : Message := mkMessage 0 "Alice" "hi" 1000 false false None [].

(** Alice's message, last edited at clock reading 0. *)
Definition edited_at_0 : Message :=
  mkMessage 0 "Alice" "hi" 0 false true (Some 0) [].

(** Two connections, [a] registered as Alice and [b] as Bob, and one
    stored message. *)
Definition room (m : Message) : Server.State :=
  Server.mkState [("a", "Alice"); ("b", "Bob")] (Mongoose.mkCollection [m] 1).

(** A payload as the client builds it, with the given [time]. *)
Definition payload (t : option string) : Server.MessagePayload :=
  Server.mkPayload (Some "Alice") (Some "hi") t.

(** U+00A0 NO-BREAK SPACE, U+2003 EM SPACE and U+FEFF, which [trim]
    strips, and U+200B ZERO WIDTH SPACE, which it keeps, as UTF-8. *)
Definition nbsp : string := String "194" (String "160" "").

Definition em_space : string := String "226" (String "128" (String "131" "")).

Definition bom : string := String "239" (String "187" (String "191" "")).

Definition zwsp : string := String "226" (String "128" (String "139" "")).

End Scenario.

(** Splits on every test left in the goal. *)
Ltac split_tests :=
  repeat (simpl; match goal with
                 | |- context [if ?b then _ else _] => destruct b
                 end);
  simpl; auto.

(* ===================================================================== *)
(** * Facts about the collection                                          *)
(* ===================================================================== *)

Section CollectionFacts.

Import Mongoose.

Lemma set_deleted_keeps_id : keeps_id set_deleted.
Proof. intros m; reflexivity. Qed.

Lemma set_edit_keeps_id s t : keeps_id (set_edit s t).
Proof. intros m; reflexivity. Qed.

Lemma addToSet_keeps_id u : keeps_id (addToSet_readBy u).
Proof. intros m; reflexivity. Qed.

Lemma findOne_Some id l m : findOne id l = Some m -> _id m = id /\ In m l.
Proof.
  unfold findOne. intros Hf. apply find_some in Hf as [Hin Heq].
  apply Nat.eqb_eq in Heq. auto.
Qed.

Lemma findOne_updateOne_same id f l m :
  keeps_id f -> findOne id l = Some m ->
  findOne id (updateOne id f l) = Some (f m).
Proof.
  intros Hk. unfold findOne. induction l as [|x r IH]; simpl; [discriminate|].
  destruct (Nat.eqb (_id x) id) eqn:E; simpl.
  - intros [= ->]. rewrite Hk, E. reflexivity.
  - rewrite E. exact IH.
Qed.

Lemma findOne_updateOne_other id id' f l :
  keeps_id f -> id' <> id ->
  findOne id' (updateOne id f l) = findOne id' l.
Proof.
  intros Hk Hne. unfold findOne. induction l as [|x r IH]; simpl; [reflexivity|].
  destruct (Nat.eqb (_id x) id) eqn:E; simpl.
  - rewrite Hk. apply Nat.eqb_eq in E.
    assert (Nat.eqb (_id x) id' = false) as -> by (apply Nat.eqb_neq; lia).
    reflexivity.
  - destruct (Nat.eqb (_id x) id'); [reflexivity | exact IH].
Qed.

Lemma updateOne_absent id f l : findOne id l = None -> updateOne id f l = l.
Proof.
  unfold findOne. induction l as [|x r IH]; simpl; [reflexivity|].
  destruct (Nat.eqb (_id x) id); [discriminate|]. intros Hn. f_equal. auto.
Qed.

Lemma map_id_updateOne id f l :
  keeps_id f -> List.map _id (updateOne id f l) = List.map _id l.
Proof.
  intros Hk. induction l as [|x r IH]; simpl; [reflexivity|].
  destruct (Nat.eqb (_id x) id); simpl; [rewrite Hk | rewrite IH]; reflexivity.
Qed.

Lemma In_updateOne id f l m' :
  In m' (updateOne id f l) -> In m' l \/ exists m, In m l /\ m' = f m.
Proof.
  induction l as [|x r IH]; simpl; [tauto|].
  destruct (Nat.eqb (_id x) id); simpl.
  - intros [<- | Hin]; [right; exists x; auto | auto].
  - intros [<- | Hin]; [auto|]. destruct (IH Hin) as [?|(m & ? & ?)]; [auto|].
    right; exists m; auto.
Qed.

Lemma findOne_app_l id l l' m :
  findOne id l = Some m -> findOne id (l ++ l') = Some m.
Proof.
  unfold findOne. induction l as [|x r IH]; simpl; [discriminate|].
  destruct (Nat.eqb (_id x) id); auto.
Qed.

(** Distinct ids: a document is determined by its id. *)
Lemma unique_by_id l m m' :
  NoDup (List.map _id l) -> In m l -> In m' l -> _id m = _id m' -> m = m'.
Proof.
  induction l as [|x r IH]; simpl; [tauto|].
  intros Hnd. apply NoDup_cons in Hnd as [Hx Hr].
  rewrite list_elem_of_In in Hx.
  intros [<-|Hm] [<-|Hm'] Heq; [reflexivity| | |apply IH; assumption].
  - exfalso. apply Hx. rewrite Heq. apply in_map. exact Hm'.
  - exfalso. apply Hx. rewrite <- Heq. apply in_map. exact Hm.
Qed.

End CollectionFacts.

Section QueryFacts.
Context `{Externals}.

Import Mongoose.

(** Sorting neither adds nor drops a document. *)
Lemma sort_by_time_In x l : In x (sort_by_time l) <-> In x l.
Proof.
  split; apply Permutation_in; [|symmetry]; apply sort_by_time_permutes.
Qed.

(** Whatever the limit, a listed document is stored and not deleted. *)
Lemma find_active_In n l x :
  In x (find_active n l) -> In x l /\ deleted x = false.
Proof.
  unfold find_active. intros Hin.
  assert (In x (sort_by_time (List.filter (fun m => negb (deleted m)) l))) as Hs.
  { apply list_elem_of_In, elem_of_take in Hin as (i & Hi & _).
    apply list_elem_of_In, list_elem_of_lookup. eauto. }
  apply sort_by_time_In, filter_In in Hs as [Hl Hd].
  split; [exact Hl|]. destruct (deleted x); [discriminate | reflexivity].
Qed.

Lemma tombstone_not_listed id l n :
  NoDup (List.map _id l) -> tombstoned id l ->
  ~ In id (List.map _id (find_active n l)).
Proof.
  intros Hnd (m & Hf & Hd) Hin.
  apply in_map_iff in Hin as (x & Hx & Hin).
  apply find_active_In in Hin as [Hl Hnd'].
  apply findOne_Some in Hf as [Hid Hm].
  assert (x = m) by (eapply unique_by_id; eauto; congruence).
  congruence.
Qed.

Lemma tombstoned_updateOne id id' f l :
  keeps_id f -> (forall m, deleted m = true -> deleted (f m) = true) ->
  tombstoned id l -> tombstoned id (updateOne id' f l).
Proof.
  intros Hk Hd (m & Hf & Hm).
  destruct (Nat.eq_dec id id') as [<-|Hne].
  - exists (f m). split; [apply findOne_updateOne_same; auto | auto].
  - exists m. split; [rewrite findOne_updateOne_other; auto | auto].
Qed.

Lemma tombstoned_app id l l' : tombstoned id l -> tombstoned id (l ++ l').
Proof. intros (m & Hf & Hm). exists m. split; [apply findOne_app_l|]; auto. Qed.

(** ** Well-formedness is kept by the store operations *)

Lemma wf_updateOne id f c :
  keeps_id f ->
  (forall m, NoDup (readBy m) -> NoDup (readBy (f m))) ->
  Server.wf_collection c ->
  Server.wf_collection (mkCollection (updateOne id f (docs c)) (next_id c)).
Proof.
  intros Hk Hr [Hnd Hall]. split; simpl.
  - rewrite map_id_updateOne; auto.
  - apply Forall_forall. intros x Hx. rewrite Forall_forall in Hall.
    apply list_elem_of_In, In_updateOne in Hx as [Hx|(m & Hm & ->)].
    + apply Hall, list_elem_of_In, Hx.
    + apply list_elem_of_In, Hall in Hm as [? ?]. rewrite Hk. auto.
Qed.

Lemma wf_create c u t d doc c' :
  Server.wf_collection c -> create c u t d = Ok (doc, c') ->
  Server.wf_collection c'.
Proof.
  intros [Hnd Hall]. unfold create.
  destruct d as [ms|]; [|discriminate].
  destruct (checkRequired u && checkRequired t); [|discriminate].
  intros [= <- <-]. rewrite Forall_forall in Hall. split; simpl.
  - rewrite map_app. simpl. apply NoDup_app. split; [exact Hnd|].
    split; [|apply NoDup_singleton].
    intros x Hx [<-|[]]%list_elem_of_In.
    apply list_elem_of_In, in_map_iff in Hx as (m & Hid & Hm).
    apply list_elem_of_In, Hall in Hm. lia.
  - apply Forall_forall. intros x [Hx|[<-|[]]]%list_elem_of_In%in_app_or.
    + apply list_elem_of_In, Hall in Hx. simpl. split; [lia | tauto].
    + simpl. split; [lia | apply NoDup_nil_2].
Qed.

Lemma addToSet_NoDup u m : NoDup (readBy m) -> NoDup (readBy (addToSet_readBy u m)).
Proof.
  intros Hnd. unfold addToSet_readBy; simpl.
  destruct (existsb (String.eqb u) (readBy m)) eqn:E; [exact Hnd|].
  apply NoDup_app. split; [exact Hnd|]. split; [|apply NoDup_singleton].
  intros x Hx [<-|[]]%list_elem_of_In.
  assert (existsb (String.eqb u) (readBy m) = true) as E'.
  { apply existsb_exists. exists u. split; [apply list_elem_of_In, Hx | apply String.eqb_refl]. }
  congruence.
Qed.

End QueryFacts.

(* ===================================================================== *)
(** * Invariants of the server                                            *)
(* ===================================================================== *)

Section ServerInvariants.
Context `{Externals}.

Import Server.

Lemma step_wf st ev :
  wf_collection (Messages st) -> wf_collection (Messages (fst (step st ev))).
Proof.
  intros Hwf. destruct ev as [sid ev]. unfold step. simpl.
  destruct ev; simpl; try exact Hwf.
  - unfold on_message.
    destruct (Mongoose.create _ _ _ _) as [[doc coll]|] eqn:E; simpl; [|exact Hwf].
    eapply wf_create; eauto.
  - unfold on_delete_message.
    destruct (Mongoose.findOne _ _); [|exact Hwf].
    destruct (String.eqb _ _); [|exact Hwf]. simpl.
    apply wf_updateOne; auto using set_deleted_keeps_id.
  - unfold on_edit_message.
    destruct (Mongoose.findOne _ _) as [m|]; [|exact Hwf].
    destruct (String.eqb _ _); [|exact Hwf].
    destruct (match editTime m with Some t => _ | None => _ end); [|exact Hwf]. simpl.
    apply wf_updateOne; auto using set_edit_keeps_id.
  - unfold on_message_read.
    destruct (Mongoose.findOne _ _); [|exact Hwf].
    destruct (negb _); [|exact Hwf]. simpl.
    apply wf_updateOne; auto using addToSet_keeps_id, addToSet_NoDup.
Qed.

Lemma run_wf evs st :
  wf_collection (Messages st) -> wf_collection (Messages (run st evs)).
Proof.
  revert st. induction evs as [|ev evs IH]; intros st Hwf; simpl; [exact Hwf|].
  apply IH, step_wf, Hwf.
Qed.

(** Every state the server reaches from its start is well formed. *)
Lemma reachable_wf evs : wf_collection (Messages (run initial evs)).
Proof.
  apply run_wf. split; simpl; [apply NoDup_nil_2 | apply Forall_nil_2].
Qed.

(** No listener clears [deleted] or removes a document. *)
Lemma step_tombstoned id st ev :
  tombstoned id (Mongoose.docs (Messages st)) ->
  tombstoned id (Mongoose.docs (Messages (fst (step st ev)))).
Proof.
  intros Ht. destruct ev as [sid ev]. unfold step. simpl.
  destruct ev; simpl; try exact Ht.
  - unfold on_message, Mongoose.create.
    destruct (message_time _ _); simpl; [|exact Ht].
    destruct (_ && _); simpl; [|exact Ht].
    apply tombstoned_app, Ht.
  - unfold on_delete_message.
    destruct (Mongoose.findOne _ _); [|exact Ht].
    destruct (String.eqb _ _); [|exact Ht]. simpl.
    apply tombstoned_updateOne; auto using set_deleted_keeps_id.
  - unfold on_edit_message.
    destruct (Mongoose.findOne _ _) as [m|]; [|exact Ht].
    destruct (String.eqb _ _); [|exact Ht].
    destruct (match editTime m with Some t => _ | None => _ end); [|exact Ht]. simpl.
    apply tombstoned_updateOne; auto using set_edit_keeps_id.
  - unfold on_message_read.
    destruct (Mongoose.findOne _ _); [|exact Ht].
    destruct (negb _); [|exact Ht]. simpl.
    apply tombstoned_updateOne; auto using addToSet_keeps_id.
Qed.

Lemma run_tombstoned id evs st :
  tombstoned id (Mongoose.docs (Messages st)) ->
  tombstoned id (Mongoose.docs (Messages (run st evs))).
Proof.
  revert st. induction evs as [|ev evs IH]; intros st Ht; simpl; [exact Ht|].
  apply IH, step_tombstoned, Ht.
Qed.

End ServerInvariants.

(* ===================================================================== *)
(** * Properties of the server's listeners                                *)
(* ===================================================================== *)

Section ServerProperties.
Context `{Externals}.

Import Server.

(** An empty roster entry acts as [Anonymous]: the listeners read the
    name with [|| 'Anonymous']. *)
Lemma username_of_empty_entry (st : State) (sid : SocketId) :
  Map_get sid (onlineUsers st) = Some "" -> username_of st sid = "Anonymous".
Proof. intros Hg. unfold username_of. rewrite Hg. reflexivity. Qed.

(** A registered name that is not empty is the name the listeners act
    under. *)
Lemma username_of_registered (st : State) (sid : SocketId) (n : string) :
  Map_get sid (onlineUsers st) = Some n -> n <> "" -> username_of st sid = n.
Proof.
  intros Hg Hn. unfold username_of. rewrite Hg.
  destruct n; [congruence | reflexivity].
Qed.

(** The test of [delete-message] and [edit-message], on the name the
    listeners act under ([username_of]: the roster entry, an empty or
    missing one read as [Anonymous]). When that name is not the stored
    author of the target message the whole state stays as it was and
    nothing is emitted. When it is, a [delete-message] marks the message
    deleted and emits its id once, with [io.emit], which reaches every
    live connection. *)
Theorem delete_edit_authorization
    (st : State) (sid : SocketId) (messageId : nat) (m : Message) :
  Mongoose.findOne messageId (Mongoose.docs (Messages st)) = Some m ->
  (user m <> username_of st sid ->
     on_delete_message st sid messageId = (st, []) /\
     forall newText now now_stored now_sent,
       on_edit_message st sid messageId newText now now_stored now_sent = (st, []))
  /\
  (user m = username_of st sid ->
     on_delete_message st sid messageId
       = (after_delete st messageId, [ (io_emit, delete_message messageId) ]) /\
     Mongoose.findOne messageId (Mongoose.docs (Messages (after_delete st messageId)))
       = Some (Mongoose.set_deleted m) /\
     deleted (Mongoose.set_deleted m) = true /\
     forall live, recipients io_emit live = live).
Proof.
  intros Hf. split.
  - intros Hne. apply String.eqb_neq in Hne.
    unfold on_delete_message, on_edit_message. rewrite Hf, Hne. auto.
  - intros Heq. apply String.eqb_eq in Heq.
    unfold on_delete_message. rewrite Hf, Heq.
    repeat split.
    simpl. apply findOne_updateOne_same; auto using set_deleted_keeps_id.
Qed.

(** For a connection registered under a name that is not empty, the
    test is on the registered name itself: when it is not the stored
    author, [delete-message] and [edit-message] leave the state as it was
    and emit nothing. *)
Lemma registered_name_authorization
    (st : State) (sid : SocketId) (messageId : nat) (m : Message) (n : string) :
  Mongoose.findOne messageId (Mongoose.docs (Messages st)) = Some m ->
  Map_get sid (onlineUsers st) = Some n -> n <> "" -> n <> user m ->
  on_delete_message st sid messageId = (st, []) /\
  forall newText now now_stored now_sent,
    on_edit_message st sid messageId newText now now_stored now_sent = (st, []).
Proof.
  intros Hf Hg Hn Hne.
  apply (delete_edit_authorization st sid messageId m Hf).
  rewrite (username_of_registered st sid n Hg Hn). congruence.
Qed.

(** C2, as the code has it. An [edit-message] by the author is turned
    down exactly when [editTime] is set and at most five minutes lie
    between it and now: an edit exactly five minutes after the last one
    is still turned down. Otherwise the text is replaced by the sanitized
    new text, [edited] becomes true, [editTime] becomes the clock reading
    taken for it, and one [edit-message] goes to everyone. *)
Theorem edit_rate_limit
    (st : State) (sid : SocketId) (messageId : nat) (m : Message)
    (newText : string) (now now_stored now_sent : Z) :
  Mongoose.findOne messageId (Mongoose.docs (Messages st)) = Some m ->
  user m = username_of st sid ->
  (in_cooldown m now ->
     on_edit_message st sid messageId newText now now_stored now_sent = (st, []))
  /\
  (~ in_cooldown m now ->
     on_edit_message st sid messageId newText now now_stored now_sent
       = (after_edit st messageId newText now_stored,
          [ (io_emit, edit_message messageId newText now_sent) ]) /\
     exists m',
       Mongoose.findOne messageId
         (Mongoose.docs (Messages (after_edit st messageId newText now_stored)))
         = Some m' /\
       text m' = sanitizeHtml newText /\ edited m' = true /\
       editTime m' = Some now_stored /\
       _id m' = _id m /\ user m' = user m /\ time m' = time m /\
       deleted m' = deleted m /\ readBy m' = readBy m)
  /\
  (forall t, editTime m = Some t -> now - t = 4 * 60 * 1000 + 59 * 1000 ->
     in_cooldown m now)
  /\
  (forall t, editTime m = Some t -> now - t = 5 * 60 * 1000 + 1 * 1000 ->
     ~ in_cooldown m now).
Proof.
  intros Hf Heq. apply String.eqb_eq in Heq.
  unfold on_edit_message. rewrite Hf, Heq.
  split; [|split; [|split]].
  - intros (t & Ht & Hle). rewrite Ht.
    destruct (t <? now - 5 * 60 * 1000) eqn:E; [apply Z.ltb_lt in E; lia | reflexivity].
  - intros Hnc.
    assert (match editTime m with Some t => t <? now - 5 * 60 * 1000 | None => true end
            = true) as ->.
    { destruct (editTime m) as [t|] eqn:Ht; [|reflexivity].
      apply Z.ltb_lt. destruct (Z_lt_dec t (now - 5 * 60 * 1000)); [assumption|].
      exfalso. apply Hnc. exists t. split; [exact Ht | lia]. }
    split; [reflexivity|].
    exists (Mongoose.set_edit (sanitizeHtml newText) now_stored m).
    split; [|repeat split].
    simpl. apply findOne_updateOne_same; auto using set_edit_keeps_id.
  - intros t Ht Hd. exists t. split; [exact Ht | lia].
  - intros t Ht Hd (t' & Ht' & Hle). rewrite Ht in Ht'. injection Ht' as <-. lia.
Qed.

(** ** The roster map *)

Lemma Map_get_set k v m : Map_get k (Map_set k v m) = Some v.
Proof.
  induction m as [|[k' v'] r IH]; simpl.
  - rewrite String.eqb_refl. reflexivity.
  - destruct (String.eqb k' k) eqn:E; simpl; rewrite E; [reflexivity | exact IH].
Qed.

Lemma Map_values_set k v m : In v (Map_values (Map_set k v m)).
Proof.
  unfold Map_values. induction m as [|[k' v'] r IH]; simpl; [auto|].
  destruct (String.eqb k' k); simpl; auto.
Qed.

(** [socket.emit] reaches nobody but the socket itself. *)
Lemma recipients_socket_emit sid live c :
  In c (recipients (socket_emit sid) live) -> c = sid.
Proof.
  simpl. intros [_ E]%filter_In. apply String.eqb_eq in E. congruence.
Qed.

(** [socket.broadcast.emit] reaches every live connection but the
    socket itself. *)
Lemma recipients_broadcast sid live c :
  In c (recipients (socket_broadcast_emit sid) live) <-> In c live /\ c <> sid.
Proof.
  simpl. rewrite filter_In. split; intros [Hin E]; split; auto.
  - intros ->. rewrite String.eqb_refl in E. discriminate.
  - destruct (String.eqb sid c) eqn:E'; [|reflexivity].
    apply String.eqb_eq in E'. congruence.
Qed.

(** C4, as the code has it. A new connection gets the default name,
    then two sends follow, both to the new socket only: first the
    history (the 500 oldest messages that are not deleted), then the
    roster, which lists the newcomer's default name. Nothing is sent to
    the other connections. *)
Theorem connection_sends (st : State) (sid : SocketId) :
  let users := Map_set sid "Anonymous" (onlineUsers st) in
  on_connection st sid
    = (mkState users (Messages st),
       [ (socket_emit sid,
          message_history (Mongoose.find_active 500 (Mongoose.docs (Messages st))));
         (socket_emit sid, room_users (Map_values users)) ])
  /\ Map_get sid users = Some "Anonymous"
  /\ In "Anonymous" (Map_values users)
  /\ forall e live c,
       In e (snd (on_connection st sid)) -> In c (recipients (fst e) live) -> c = sid.
Proof.
  intros users. split; [reflexivity|]. split; [apply Map_get_set|].
  split; [apply Map_values_set|].
  intros e live c [<-|[<-|[]]] Hc; simpl in Hc; eapply recipients_socket_emit; eauto.
Qed.

(** C5. Once a [delete-message] has gone through for an id, whatever
    events follow, the id is in no result of the active-message query,
    for any limit: not in the body of [GET /messages] and not in the
    history sent to a later connection. The document is still there: a
    lookup by id finds it, with [deleted] true. *)
Theorem soft_delete_exclusion
    (st : State) (sid : SocketId) (messageId : nat)
    (evs : list (SocketId * Inbound)) :
  wf_collection (Messages st) ->
  snd (on_delete_message st sid messageId) = [ (io_emit, delete_message messageId) ] ->
  let st' := run (fst (on_delete_message st sid messageId)) evs in
  (forall limit,
     ~ In messageId (List.map _id (Mongoose.find_active limit (Mongoose.docs (Messages st')))))
  /\ ~ In messageId (List.map _id (get_messages st'))
  /\ (forall sid' history,
        In (socket_emit sid', message_history history) (snd (on_connection st' sid')) ->
        ~ In messageId (List.map _id history))
  /\ exists m, Mongoose.findOne messageId (Mongoose.docs (Messages st')) = Some m
               /\ deleted m = true.
Proof.
  intros Hwf Hok st'.
  assert (tombstoned messageId (Mongoose.docs (Messages st'))) as Ht.
  { apply run_tombstoned. revert Hok. unfold on_delete_message.
    destruct (Mongoose.findOne _ _) as [m|] eqn:Hf; [|discriminate].
    destruct (String.eqb _ _); [|discriminate]. intros _. simpl.
    exists (Mongoose.set_deleted m). split; [|reflexivity].
    apply findOne_updateOne_same; auto using set_deleted_keeps_id. }
  assert (wf_collection (Messages st')) as [Hnd _].
  { apply run_wf.
    change (fst (on_delete_message st sid messageId))
      with (fst (step st (sid, In_delete_message messageId))).
    apply step_wf, Hwf. }
  split; [|split; [|split]].
  - intros limit. apply tombstone_not_listed; assumption.
  - apply tombstone_not_listed; assumption.
  - intros sid' history [[= <-]|[[=]|[]]]. apply tombstone_not_listed; assumption.
  - exact Ht.
Qed.

Lemma read_already st sid messageId m :
  Mongoose.findOne messageId (Mongoose.docs (Messages st)) = Some m ->
  existsb (String.eqb (username_of st sid)) (readBy m) = true ->
  on_message_read st sid messageId = (st, []).
Proof. intros Hf E. unfold on_message_read. rewrite Hf, E. reflexivity. Qed.

Lemma read_applied st sid messageId m :
  Mongoose.findOne messageId (Mongoose.docs (Messages st)) = Some m ->
  existsb (String.eqb (username_of st sid)) (readBy m) = false ->
  on_message_read st sid messageId
    = (after_read st sid messageId,
       [ (io_emit, message_read messageId (username_of st sid)) ]).
Proof. intros Hf E. unfold on_message_read. rewrite Hf, E. reflexivity. Qed.

Lemma existsb_eqb_In u l : existsb (String.eqb u) l = true <-> In u l.
Proof.
  rewrite existsb_exists. split.
  - intros (x & Hx & E). apply String.eqb_eq in E. congruence.
  - intros Hin. exists u. split; [exact Hin | apply String.eqb_refl].
Qed.

(** C6. Two [message-read] events in a row from one connection for one
    message: the second changes nothing and emits nothing; the first adds
    the reader and emits one [message-read] to everyone when the reader
    was not listed, and does nothing when it was; afterwards the reader
    is in [readBy] exactly once. *)
Theorem mark_read_idempotent
    (st : State) (sid : SocketId) (messageId : nat) (m : Message) :
  wf_collection (Messages st) ->
  Mongoose.findOne messageId (Mongoose.docs (Messages st)) = Some m ->
  let username := username_of st sid in
  let first := on_message_read st sid messageId in
  let second := on_message_read (fst first) sid messageId in
  second = (fst first, [])
  /\ (~ In username (readBy m) ->
        first = (after_read st sid messageId,
                 [ (io_emit, message_read messageId username) ]))
  /\ (In username (readBy m) -> first = (st, []))
  /\ exists m2,
       Mongoose.findOne messageId (Mongoose.docs (Messages (fst second))) = Some m2
       /\ count_occ String.string_dec (readBy m2) username = 1%nat.
Proof.
  intros [Hnd Hall] Hf username first second.
  assert (NoDup (readBy m)) as Hm.
  { rewrite Forall_forall in Hall. apply findOne_Some in Hf as [_ Hin].
    apply list_elem_of_In, Hall in Hin. tauto. }
  destruct (existsb (String.eqb username) (readBy m)) eqn:E.
  - (* the reader is listed already *)
    assert (first = (st, [])) as Hfirst by (eapply read_already; eauto).
    assert (second = (st, [])) as Hsecond.
    { subst second. rewrite Hfirst. simpl. eapply read_already; eauto. }
    apply existsb_eqb_In in E.
    rewrite Hsecond, Hfirst. simpl.
    split; [reflexivity|]. split; [tauto|]. split; [reflexivity|].
    exists m. split; [exact Hf|].
    apply NoDup_count_occ'; [apply NoDup_ListNoDup, Hm | exact E].
  - (* the reader is new *)
    assert (first = (after_read st sid messageId,
                     [ (io_emit, message_read messageId username) ])) as Hfirst
      by (eapply read_applied; eauto).
    assert (Mongoose.findOne messageId
              (Mongoose.docs (Messages (after_read st sid messageId)))
            = Some (Mongoose.addToSet_readBy username m)) as Hf2.
    { simpl. apply findOne_updateOne_same; auto using addToSet_keeps_id. }
    assert (readBy (Mongoose.addToSet_readBy username m) = (readBy m ++ [username])%list) as Hr.
    { unfold Mongoose.addToSet_readBy; simpl. rewrite E. reflexivity. }
    assert (second = (after_read st sid messageId, [])) as Hsecond.
    { subst second. rewrite Hfirst. simpl. eapply read_already; [exact Hf2|].
      change (username_of (after_read st sid messageId) sid) with username.
      apply existsb_eqb_In. rewrite Hr. apply in_or_app. simpl. auto. }
    assert (~ In username (readBy m)) as Hnin.
    { intros Hin. apply existsb_eqb_In in Hin. congruence. }
    rewrite Hsecond, Hfirst. simpl.
    split; [reflexivity|]. split; [reflexivity|]. split; [tauto|].
    exists (Mongoose.addToSet_readBy username m). split; [exact Hf2|].
    rewrite Hr, count_occ_app. simpl.
    destruct (String.string_dec username username); [|congruence].
    apply (count_occ_not_In String.string_dec) in Hnin. rewrite Hnin. reflexivity.
Qed.

(** The typing relay of the latest server: one [typing] event in, one
    [typing] emission out, built from the sanitized name and the clock,
    sent with [socket.broadcast.emit]; the sender is not among its
    recipients and every other live connection is. *)
Lemma typing_relay_once
    (st : State) (sid : SocketId) (payload_user : option string) (now : Z) :
  let who :=
    sanitizeHtml (Js.or_str (Js.trim (Js.or_default payload_user "Someone")) "Someone") in
  List.filter is_typing (snd (on_typing st sid payload_user now))
    = [ (socket_broadcast_emit sid, typing who now) ]
  /\ forall live c,
       In c (recipients (socket_broadcast_emit sid) live) <-> In c live /\ c <> sid.
Proof. split; [reflexivity | intros; apply recipients_broadcast]. Qed.

Lemma on_message_created st sid msg now ms :
  Js.truthy (message_username msg) = true ->
  Js.truthy (message_text msg) = true ->
  message_time (msg_time msg) now = Some ms ->
  exists doc, appends st (on_message st sid msg now) doc /\ time doc = ms
              /\ user doc = message_username msg /\ text doc = message_text msg
              /\ deleted doc = false.
Proof.
  intros Hu Ht Hd. unfold on_message, Mongoose.create.
  fold (message_username msg). fold (message_text msg).
  rewrite Hd. unfold Mongoose.checkRequired. rewrite Hu, Ht. simpl.
  eexists. split; [split; [reflexivity | left; reflexivity]|]. simpl. auto.
Qed.

(** C8, as the code has it. For a [message] event whose name and text
    pass the schema: a timestamp that is supplied and parses is the
    stored [time]; a timestamp that is missing or the empty string is
    replaced by the server's clock; a timestamp that is supplied and does
    not parse is not replaced: the create is rejected, nothing is stored
    and nothing is emitted. *)
Theorem message_timestamp
    (st : State) (sid : SocketId) (msg : MessagePayload) (now : Z) :
  Js.truthy (message_username msg) = true ->
  Js.truthy (message_text msg) = true ->
  (forall s ms,
     msg_time msg = Some s -> Js.truthy s = true -> Date_parse s = Some ms ->
     stores_with_time st (on_message st sid msg now) ms)
  /\
  (msg_time msg = None \/ msg_time msg = Some "" ->
     stores_with_time st (on_message st sid msg now) now)
  /\
  (forall s,
     msg_time msg = Some s -> Js.truthy s = true -> Date_parse s = None ->
     Messages (fst (on_message st sid msg now)) = Messages st
     /\ snd (on_message st sid msg now) = []).
Proof.
  intros Hu Ht. split; [|split].
  - intros s ms Hs Hts Hp.
    destruct (on_message_created st sid msg now ms Hu Ht) as (doc & ? & ? & _).
    { rewrite Hs. simpl. rewrite Hts. exact Hp. }
    exists doc. auto.
  - intros Hs.
    destruct (on_message_created st sid msg now now Hu Ht) as (doc & ? & ? & _).
    { destruct Hs as [-> | ->]; reflexivity. }
    exists doc. auto.
  - intros s Hs Hts Hp. unfold on_message, Mongoose.create.
    rewrite Hs. simpl. rewrite Hts. unfold new_Date. rewrite Hp. simpl. auto.
Qed.

(** C10. A [message] event whose text is empty once sanitized (a
    missing text is sanitized as the empty string) fails the schema's
    [required]: the collection is as before and nothing is emitted, to
    anyone. *)
Theorem empty_text_is_dropped
    (st : State) (sid : SocketId) (msg : MessagePayload) (now : Z) :
  sanitizeHtml (Js.or_default (msg_text msg) "") = "" ->
  Messages (fst (on_message st sid msg now)) = Messages st
  /\ snd (on_message st sid msg now) = []
  /\ List.filter is_message (snd (on_message st sid msg now)) = [].
Proof.
  intros He. unfold on_message, Mongoose.create. rewrite He.
  destruct (message_time _ _); simpl; [|auto].
  rewrite andb_false_r. simpl. auto.
Qed.

End ServerProperties.

(* ===================================================================== *)
(** * The server on concrete rooms                                        *)
(* ===================================================================== *)

Section ServerExamples.

Import Server Scenario.

#[local] Existing Instance Standin.externals.

(** Bob's delete of Alice's message is refused, Alice's goes through. *)
Lemma delete_edit_authorization_witness :
  on_delete_message (room hello) "b" 0 = (room hello, [])
  /\ on_delete_message (room hello) "a" 0
     = (after_delete (room hello) 0, [ (io_emit, delete_message 0%nat) ]).
Proof.
  split.
  - apply (delete_edit_authorization (room hello) "b" 0 hello);
      [reflexivity | discriminate].
  - apply (delete_edit_authorization (room hello) "a" 0 hello); reflexivity.
Defined.

(** C1. The claim has a connection whose registered name differs from
    the stored author change nothing. Connection [a] sends
    [set-username] with a name that is markup only: the default is
    applied before the markup is stripped, so [a] is registered under
    the empty name. Connection [b] has sent a message with no name,
    stored under the author [Anonymous]. The empty name differs from
    [Anonymous], yet the [delete-message] of [a] marks the message of [b]
    deleted and emits its id to everyone, and the [edit-message] of [a]
    replaces its text and is emitted to everyone. *)
Theorem empty_name_passes_for_anonymous :
  let st := run initial
              [ ("a", In_connection); ("b", In_connection);
                ("b", In_message (mkPayload None (Some "hi") None) 1000);
                ("a", In_set_username (Some "<b></b>")) ] in
  Map_get "a" (onlineUsers st) = Some ""
  /\ Mongoose.findOne 0 (Mongoose.docs (Messages st))
     = Some (mkMessage 0 "Anonymous" "hi" 1000 false false None [])
  /\ "" <> "Anonymous"
  /\ on_delete_message st "a" 0
     = (after_delete st 0, [ (io_emit, delete_message 0%nat) ])
  /\ Mongoose.findOne 0 (Mongoose.docs (Messages (after_delete st 0)))
     = Some (mkMessage 0 "Anonymous" "hi" 1000 true false None [])
  /\ on_edit_message st "a" 0 "mine" 5000 5000 5000
     = (after_edit st 0 "mine" 5000, [ (io_emit, edit_message 0%nat "mine" 5000) ])
  /\ Mongoose.findOne 0 (Mongoose.docs (Messages (after_edit st 0 "mine" 5000)))
     = Some (mkMessage 0 "Anonymous" "mine" 1000 false true (Some 5000) []).
Proof.
  cbv zeta. repeat split; try reflexivity. discriminate.
Qed.

(** The claim C2 puts the limit at "less than five minutes". Exactly
    five minutes after the last edit the author's edit is still refused:
    the state is unchanged and nothing is emitted. *)
Lemma edit_at_five_minutes_is_refused :
  editTime edited_at_0 = Some 0
  /\ ~ (300000 - 0 < 5 * 60 * 1000)
  /\ on_edit_message (room edited_at_0) "a" 0 "hello" 300000 300000 300000
     = (room edited_at_0, []).
Proof. split; [reflexivity|]. split; [lia | reflexivity]. Qed.

(** An edit 4 min 59 s after the last one is refused, one 5 min 1 s
    after it goes through. *)
Lemma edit_rate_limit_witness :
  on_edit_message (room edited_at_0) "a" 0 "hello" 299000 299000 299000
    = (room edited_at_0, [])
  /\ on_edit_message (room edited_at_0) "a" 0 "hello" 301000 301000 301000
     = (after_edit (room edited_at_0) 0 "hello" 301000,
        [ (io_emit, edit_message 0%nat "hello" 301000) ]).
Proof.
  split.
  - apply (edit_rate_limit (room edited_at_0) "a" 0 edited_at_0 "hello" 299000 299000 299000);
      [reflexivity | reflexivity |].
    exists 0. split; [reflexivity | lia].
  - apply (edit_rate_limit (room edited_at_0) "a" 0 edited_at_0 "hello" 301000 301000 301000);
      [reflexivity | reflexivity |].
    intros (t & Ht & Hle). injection Ht as <-. lia.
Defined.

(** The claim C4 has the roster sent first and broadcast last. A third
    connection [c] gets the history first and the roster second, and
    neither Alice's nor Bob's connection is sent anything. *)
Lemma connection_is_not_broadcast :
  snd (on_connection (room hello) "c")
    = [ (socket_emit "c", message_history [hello]);
        (socket_emit "c", room_users ["Alice"; "Bob"; "Anonymous"]) ]
  /\ snd (on_connection (room hello) "c") <> roster_history_broadcast (room hello) "c"
  /\ forall e, In e (snd (on_connection (room hello) "c")) ->
               recipients (fst e) ["a"; "b"; "c"] = ["c"].
Proof.
  split; [reflexivity|]. split; [discriminate|].
  intros e [<-|[<-|[]]]; reflexivity.
Qed.

(** After Alice's delete, a new connection and a new message later, the
    id is neither listed nor gone. *)
Lemma soft_delete_exclusion_witness :
  let st' := run (fst (on_delete_message (room hello) "a" 0))
               [ ("c", In_connection); ("b", In_message (payload None) 5000) ] in
  (forall limit,
     ~ In 0%nat (List.map _id (Mongoose.find_active limit (Mongoose.docs (Messages st')))))
  /\ ~ In 0%nat (List.map _id (get_messages st'))
  /\ (forall sid' history,
        In (socket_emit sid', message_history history) (snd (on_connection st' sid')) ->
        ~ In 0%nat (List.map _id history))
  /\ exists m, Mongoose.findOne 0 (Mongoose.docs (Messages st')) = Some m
               /\ deleted m = true.
Proof.
  apply (soft_delete_exclusion (room hello) "a" 0).
  - split; simpl.
    + apply NoDup_singleton.
    + apply Forall_singleton. split; [cbv; lia | apply NoDup_nil_2].
  - reflexivity.
Defined.

(** Bob reads Alice's message twice. *)
Lemma mark_read_idempotent_witness :
  on_message_read (fst (on_message_read (room hello) "b" 0)) "b" 0
    = (fst (on_message_read (room hello) "b" 0), []).
Proof.
  apply (mark_read_idempotent (room hello) "b" 0 hello).
  - split; simpl.
    + apply NoDup_singleton.
    + apply Forall_singleton. split; [cbv; lia | apply NoDup_nil_2].
  - reflexivity.
Defined.

(** C7 at the earlier server revision: one [typing] event from [c1]
    makes the server relay twice, once as [{ user, at }] and once as the
    payload it received; every other connection gets two [typing]
    events. *)
Theorem early_typing_relays_twice :
  EarlyServer.on_typing "c1" (Some "Alice") 7
    = [ (socket_broadcast_emit "c1", EarlyServer.typing "Alice" 7);
        (socket_broadcast_emit "c1", EarlyServer.typing_forwarded (Some "Alice")) ]
  /\ length (EarlyServer.on_typing "c1" (Some "Alice") 7) = 2%nat.
Proof. split; reflexivity. Qed.

(** The claim C8 has an unparseable timestamp replaced by the server's
    clock. A message whose [time] is no date is not stored at all, at
    the clock reading 1000 or any other, and nothing is emitted. *)
Lemma unparseable_time_is_not_defaulted :
  Date_parse "not-a-date" = None
  /\ on_message initial "c" (payload (Some "not-a-date")) 1000
     = (mkState [("c", "Alice")] (Mongoose.mkCollection [] 0), [])
  /\ ~ stores_with_time initial
         (on_message initial "c" (payload (Some "not-a-date")) 1000) 1000.
Proof.
  split; [reflexivity|]. split; [reflexivity|].
  intros (doc & [Hd _] & _). simpl in Hd. discriminate Hd.
Qed.

(** A timestamp in the client's format is kept, a missing one becomes
    the server's clock reading. *)
Lemma message_timestamp_witness :
  stores_with_time initial
    (on_message initial "c" (payload (Some "1970-01-01T00:00:01.000Z")) 5000) 1000
  /\ stores_with_time initial (on_message initial "c" (payload None) 5000) 5000.
Proof.
  split.
  - apply (message_timestamp initial "c" (payload (Some "1970-01-01T00:00:01.000Z")) 5000)
      with (s := "1970-01-01T00:00:01.000Z"); reflexivity.
  - apply (message_timestamp initial "c" (payload None) 5000);
      [reflexivity | reflexivity | left; reflexivity].
Defined.

(** A message whose text is one empty tag. *)
Lemma empty_text_is_dropped_witness :
  Messages (fst (on_message initial "c" (mkPayload (Some "Alice") (Some "<b></b>") None) 5000))
    = Messages initial
  /\ snd (on_message initial "c" (mkPayload (Some "Alice") (Some "<b></b>") None) 5000) = [].
Proof.
  pose proof (empty_text_is_dropped initial "c"
                (mkPayload (Some "Alice") (Some "<b></b>") None) 5000) as Hdrop.
  destruct Hdrop as (Hm & He & _); [reflexivity|]. split; [exact Hm | exact He].
Defined.

End ServerExamples.

(* ===================================================================== *)
(** * The client's typing timers                                          *)
(* ===================================================================== *)

Section TypingTimers.

Import Client.

Implicit Types (c : State) (who w : string) (t : Z).

(** Running the callbacks of a list of timeouts touches the typing set
    and the timer map only. *)
Lemma timeouts_fold_frame (l : list (nat * (Z * string))) c :
  let r := foldr (fun e acc => typing_timeout (snd (snd e)) acc) c l in
  timeouts r = timeouts c /\ next_timeout r = next_timeout c
  /\ listeners r = listeners c /\ mounted r = mounted c.
Proof.
  induction l as [|e l IH]; simpl; [auto|].
  destruct IH as (? & ? & ? & ?). auto.
Qed.

Lemma timeouts_fold_users (l : list (nat * (Z * string))) c w :
  w ∈ typingUsers (foldr (fun e acc => typing_timeout (snd (snd e)) acc) c l)
  <-> w ∈ typingUsers c /\ ~ In w (List.map (fun e => snd (snd e)) l).
Proof.
  induction l as [|e l IH]; simpl; [tauto|].
  rewrite elem_of_difference, elem_of_singleton, IH.
  intuition congruence.
Qed.

Lemma timeouts_fold_timers (l : list (nat * (Z * string))) c w :
  ~ In w (List.map (fun e => snd (snd e)) l) ->
  typingTimers (foldr (fun e acc => typing_timeout (snd (snd e)) acc) c l) !! w
  = typingTimers c !! w.
Proof.
  induction l as [|e l IH]; simpl; [reflexivity|].
  intros Hn. rewrite lookup_delete_ne by tauto. apply IH. tauto.
Qed.

(** A subject has a timeout due by [t]. *)
Lemma due_subject t c w :
  In w (List.map (fun e => snd (snd e))
          (List.filter (is_due t) (map_to_list (timeouts c))))
  <-> exists (id : nat) (d : Z), timeouts c !! id = Some (d, w) /\ d <= t.
Proof.
  rewrite in_map_iff. split.
  - intros ([id [d w']] & Hw & Hin). simpl in Hw. subst w'.
    apply filter_In in Hin as [Hin Hd].
    apply list_elem_of_In, elem_of_map_to_list in Hin.
    unfold is_due in Hd; simpl in Hd. apply Z.leb_le in Hd. eauto.
  - intros (id & d & Hl & Hd). exists (id, (d, w)). split; [reflexivity|].
    apply filter_In. split.
    + apply list_elem_of_In, elem_of_map_to_list, Hl.
    + unfold is_due; simpl. apply Z.leb_le, Hd.
Qed.

(** Who is typing once the clock has reached [t]: those who were, but
    for the subjects of the timeouts that came due. *)
Lemma advance_typingUsers t c w :
  w ∈ typingUsers (advance t c)
  <-> w ∈ typingUsers c
      /\ ~ exists (id : nat) (d : Z), timeouts c !! id = Some (d, w) /\ d <= t.
Proof.
  unfold advance. rewrite timeouts_fold_users. simpl. rewrite due_subject. tauto.
Qed.

Lemma advance_timeouts t c (id : nat) (d : Z) w :
  timeouts (advance t c) !! id = Some (d, w)
  <-> timeouts c !! id = Some (d, w) /\ t < d.
Proof.
  unfold advance.
  destruct (timeouts_fold_frame
              (List.filter (is_due t) (map_to_list (timeouts c)))
              (with_typing (typingUsers c) (typingTimers c)
                 (filter (fun e : nat * (Z * string) => ¬ is_due t e) (timeouts c))
                 (next_timeout c) c)) as (-> & _).
  simpl. rewrite map_lookup_filter_Some. unfold is_due. simpl.
  rewrite Is_true_true, Z.leb_le. split; intros [? ?]; split; auto; lia.
Qed.

Lemma advance_frame t c :
  next_timeout (advance t c) = next_timeout c
  /\ listeners (advance t c) = listeners c /\ mounted (advance t c) = mounted c.
Proof.
  unfold advance.
  destruct (timeouts_fold_frame
              (List.filter (is_due t) (map_to_list (timeouts c)))
              (with_typing (typingUsers c) (typingTimers c)
                 (filter (fun e : nat * (Z * string) => ¬ is_due t e) (timeouts c))
                 (next_timeout c) c)) as (_ & -> & -> & ->).
  simpl. auto.
Qed.

(** ** The invariant *)

Lemma wf_mount : wf mount.
Proof. intros t d w Hl. simpl in Hl. rewrite lookup_empty in Hl. discriminate. Qed.

Lemma wf_advance t c : wf c -> wf (advance t c).
Proof.
  intros Hwf id d w Hl. apply advance_timeouts in Hl as [Hl Hlt].
  destruct (Hwf _ _ _ Hl) as [Htm Hn].
  destruct (advance_frame t c) as (-> & _). split; [|exact Hn].
  unfold advance. rewrite timeouts_fold_timers; [exact Htm|].
  rewrite due_subject. intros (id' & d' & Hl' & Hd').
  destruct (Hwf _ _ _ Hl') as [Htm' _].
  rewrite Htm in Htm'. injection Htm' as <-.
  rewrite Hl in Hl'. injection Hl' as <-. lia.
Qed.

(** After a typing event for a subject, its only pending timeout is the
    new one. *)
Lemma on_typing_timeouts payload_user now c (id : nat) (d : Z) w :
  wf c -> mounted c = true -> typing_subject payload_user <> self_name c ->
  timeouts (on_typing payload_user now c) !! id = Some (d, w) ->
  (id = next_timeout c /\ d = now + 2000 /\ w = typing_subject payload_user)
  \/ (id <> next_timeout c /\ w <> typing_subject payload_user
      /\ timeouts c !! id = Some (d, w)).
Proof.
  intros Hwf Hm Hself. unfold on_typing. rewrite Hm. simpl.
  apply String.eqb_neq in Hself. rewrite Hself. simpl.
  destruct (decide (id = next_timeout c)) as [->|Hne].
  - rewrite lookup_insert_eq. intros [= <- <-]. auto.
  - rewrite lookup_insert_ne by congruence. intros Hl. right.
    assert (timeouts c !! id = Some (d, w)
            /\ typingTimers c !! typing_subject payload_user <> Some id) as [Hc Hold].
    { destruct (typingTimers c !! typing_subject payload_user) as [old|] eqn:E.
      - destruct (decide (id = old)) as [->|Hne'].
        + rewrite lookup_delete_eq in Hl. discriminate.
        + rewrite lookup_delete_ne in Hl by congruence. split; [exact Hl | congruence].
      - split; [exact Hl | discriminate]. }
    split; [exact Hne|]. split; [|exact Hc].
    intros ->. destruct (Hwf _ _ _ Hc) as [Htm _]. congruence.
Qed.

Lemma wf_on_typing payload_user now c : wf c -> wf (on_typing payload_user now c).
Proof.
  intros Hwf.
  destruct (mounted c) eqn:Hm; [|unfold on_typing; rewrite Hm; exact Hwf].
  destruct (String.eqb (typing_subject payload_user) (self_name c)) eqn:Hs;
    [unfold on_typing; rewrite Hm; simpl; rewrite Hs; exact Hwf|].
  apply String.eqb_neq in Hs.
  intros id d w Hl.
  destruct (on_typing_timeouts _ _ _ _ _ _ Hwf Hm Hs Hl) as [(-> & -> & ->)|(Hne & Hw & Hc)];
    unfold on_typing; rewrite Hm; simpl;
    apply String.eqb_neq in Hs; rewrite Hs; simpl.
  - rewrite lookup_insert_eq. split; [reflexivity | lia].
  - rewrite lookup_insert_ne by congruence.
    destruct (Hwf _ _ _ Hc) as [Htm Hn]. split; [exact Htm | lia].
Qed.

End TypingTimers.

Section TypingWindow.

Import Client.

(** After a typing event at [t0] for a subject that is not the user's
    own name, with nothing else happening, the subject is shown as typing
    at every clock reading before [t0 + 2000] and at none from then on,
    whatever timeout was pending for it before. *)
Lemma typing_window_from (c : State) (payload_user : option string) (t0 t : Z) :
  wf c -> mounted c = true ->
  typing_subject payload_user <> self_name c ->
  typing_subject payload_user ∈ typingUsers (advance t (on_typing payload_user t0 c))
  <-> t < t0 + 2000.
Proof.
  intros Hwf Hm Hself. rewrite advance_typingUsers.
  assert (typing_subject payload_user ∈ typingUsers (on_typing payload_user t0 c)) as Hin.
  { unfold on_typing. rewrite Hm. simpl.
    apply String.eqb_neq in Hself. rewrite Hself. simpl. set_solver. }
  assert (timeouts (on_typing payload_user t0 c) !! next_timeout c
          = Some (t0 + 2000, typing_subject payload_user)) as Hnew.
  { unfold on_typing. rewrite Hm. simpl.
    apply String.eqb_neq in Hself. rewrite Hself. simpl. apply lookup_insert_eq. }
  split.
  - intros [_ Hnone]. destruct (Z_lt_dec t (t0 + 2000)); [assumption|].
    exfalso. apply Hnone. exists (next_timeout c), (t0 + 2000). split; [exact Hnew | lia].
  - intros Hlt. split; [exact Hin|]. intros (id & d & Hl & Hd).
    destruct (on_typing_timeouts _ _ _ _ _ _ Hwf Hm Hself Hl) as [(_ & -> & _)|(_ & Hw & _)];
      [lia | congruence].
Qed.

(** The window of a subject the listener does not drop. For a subject
    other than the name the listener compares with ([self_name], the
    name of the first render), a typing event at [t0] shows the subject
    as typing until 2000 ms have passed and no longer; a second event for
    the subject at [t1] leaves one pending timeout for it, due at
    [t1 + 2000], and the subject is shown until then. *)
Theorem typing_window (c : State) (payload_user : option string) (t0 : Z) :
  wf c -> mounted c = true ->
  typing_subject payload_user <> self_name c ->
  let who := typing_subject payload_user in
  let c1 := on_typing payload_user t0 c in
  (forall t, who ∈ typingUsers (advance t c1) <-> t < t0 + 2000)
  /\ forall t1,
       let c2 := on_typing payload_user t1 (advance t1 c1) in
       (forall (id : nat) (d : Z), timeouts c2 !! id = Some (d, who) -> d = t1 + 2000)
       /\ forall t, who ∈ typingUsers (advance t c2) <-> t < t1 + 2000.
Proof.
  intros Hwf Hm Hself who c1.
  split; [intros t; apply typing_window_from; assumption|].
  intros t1 c2.
  assert (wf (advance t1 c1)) as Hwf1 by (apply wf_advance, wf_on_typing, Hwf).
  assert (mounted (advance t1 c1) = true /\ self_name (advance t1 c1) = self_name c)
    as [Hm1 Hs1].
  { destruct (advance_frame t1 c1) as (_ & Hl & ->). unfold self_name. rewrite Hl.
    subst c1. unfold on_typing. rewrite Hm. simpl.
    destruct (String.eqb _ _); simpl; auto. }
  assert (typing_subject payload_user <> self_name (advance t1 c1)) as Hself1
    by congruence.
  split.
  - intros id d Hl.
    destruct (on_typing_timeouts payload_user t1 (advance t1 c1) id d who
                Hwf1 Hm1 Hself1 Hl) as [(_ & -> & _)|(_ & Hw & _)];
      [reflexivity | exfalso; apply Hw; reflexivity].
  - intros t. apply typing_window_from; assumption.
Qed.

End TypingWindow.

(* ===================================================================== *)
(** * The client's unseen counter                                         *)
(* ===================================================================== *)

Section UnseenCounter.

Import Client.

Lemma timeouts_fold_view (l : list (nat * (Z * string))) (c : State) :
  let r := foldr (fun e acc => typing_timeout (snd (snd e)) acc) c l in
  unseenCount r = unseenCount c /\ isAtBottom r = isAtBottom c
  /\ messages r = messages c.
Proof.
  induction l as [|e l IH]; simpl; [auto|]. destruct IH as (? & ? & ?). auto.
Qed.

(** No event replaces the closure of the socket listeners. *)
Lemma step_listeners (c : State) (e : Event) : listeners (step c e) = listeners c.
Proof.
  destruct e; simpl.
  - unfold on_message_history, auto_scroll. split_tests.
  - unfold on_message, auto_scroll. split_tests.
  - unfold on_typing. split_tests.
  - unfold handleScroll, auto_scroll. split_tests.
  - unfold animation_frame, auto_scroll. destruct (frames c); split_tests.
  - unfold jump_to_newest. split_tests.
  - reflexivity.
  - apply advance_frame.
Qed.

(** While the listeners read [isAtBottom] as true, a step from a zero
    counter ends in a zero counter. *)
Lemma step_unseen_zero (c : State) (e : Event) :
  seen_isAtBottom (listeners c) = true -> unseenCount c = 0%nat ->
  unseenCount (step c e) = 0%nat.
Proof.
  intros Hseen Hz. destruct e; simpl.
  - unfold on_message_history, auto_scroll. split_tests.
  - unfold on_message, auto_scroll. rewrite Hseen. split_tests.
  - unfold on_typing. split_tests.
  - unfold handleScroll, auto_scroll. split_tests.
  - unfold animation_frame, auto_scroll. destruct (frames c); split_tests.
  - unfold jump_to_newest. split_tests.
  - exact Hz.
  - unfold advance.
    destruct (timeouts_fold_view
                (List.filter (is_due t) (map_to_list (timeouts c)))
                (with_typing (typingUsers c) (typingTimers c)
                   (filter (fun e : nat * (Z * string) => ¬ is_due t e) (timeouts c))
                   (next_timeout c) c)) as (-> & _).
    exact Hz.
Qed.

(** An event that leaves the timer tables alone keeps the invariant. *)
Lemma wf_same_timers (c c' : State) :
  timeouts c' = timeouts c -> typingTimers c' = typingTimers c ->
  next_timeout c' = next_timeout c -> wf c -> wf c'.
Proof.
  intros Ht Hm Hn Hwf id d w. rewrite Ht, Hm, Hn. apply Hwf.
Qed.

Lemma client_step_wf (c : State) (e : Event) : wf c -> wf (step c e).
Proof.
  intros Hwf. destruct e; simpl.
  - apply (wf_same_timers c); [| | |exact Hwf];
      unfold on_message_history, auto_scroll; split_tests.
  - apply (wf_same_timers c); [| | |exact Hwf];
      unfold on_message, auto_scroll; split_tests.
  - apply wf_on_typing, Hwf.
  - apply (wf_same_timers c); [| | |exact Hwf];
      unfold handleScroll, auto_scroll; split_tests.
  - apply (wf_same_timers c); [| | |exact Hwf];
      unfold animation_frame, auto_scroll; destruct (frames c); split_tests.
  - apply (wf_same_timers c); [| | |exact Hwf]; unfold jump_to_newest; split_tests.
  - exact Hwf.
  - apply wf_advance, Hwf.
Qed.

(** Every state the component reaches from its mount is well formed. *)
Lemma client_reachable_wf (evs : list Event) : wf (run mount evs).
Proof.
  unfold run. generalize wf_mount. generalize mount.
  induction evs as [|e evs IH]; intros c Hwf; simpl; [exact Hwf|].
  apply IH, client_step_wf, Hwf.
Qed.

(** The counter of the latest client never leaves zero: its [message]
    listener reads the [isAtBottom] of the first render, which is true. *)
Lemma unseen_always_zero (evs : list Event) : unseenCount (run mount evs) = 0%nat.
Proof.
  unfold run.
  assert (forall c, seen_isAtBottom (listeners c) = true -> unseenCount c = 0%nat ->
                    unseenCount (fold_left step evs c) = 0%nat) as Hgen.
  { induction evs as [|e evs IH]; intros c Hs Hz; simpl; [exact Hz|].
    apply IH; [rewrite step_listeners; exact Hs | apply step_unseen_zero; assumption]. }
  apply Hgen; reflexivity.
Qed.

(** No run replaces the closure of the socket listeners. *)
Lemma run_listeners (evs : list Event) (c : State) :
  listeners (run c evs) = listeners c.
Proof.
  unfold run. revert c.
  induction evs as [|e evs IH]; intros c; simpl; [reflexivity|].
  rewrite IH. apply step_listeners.
Qed.

(** The name the typing listener compares with is the one of the first
    render, on every state reached from the mount: whatever name the user
    has typed since, it is [Anonymous]. *)
Lemma listener_name_is_first_render (evs : list Event) :
  self_name (run mount evs) = "Anonymous".
Proof. unfold self_name. rewrite run_listeners. reflexivity. Qed.

(** So a typing event for a user called [Anonymous] is dropped in every
    state reached from the mount. *)
Lemma typing_for_anonymous_is_dropped (evs : list Event) (t : Z) :
  on_typing (Some "Anonymous") t (run mount evs) = run mount evs.
Proof.
  unfold on_typing. rewrite listener_name_is_first_render.
  destruct (mounted (run mount evs)); reflexivity.
Qed.

(** An event other than a typing event adds nobody to the names shown
    as typing. *)
Lemma step_typingUsers (c : State) (e : Event) (who : string) :
  who ∈ typingUsers (step c e) ->
  who ∈ typingUsers c
  \/ exists u now, e = Ev_typing u now /\ who = typing_subject u /\ who <> self_name c.
Proof.
  destruct e; simpl.
  - unfold on_message_history, auto_scroll. split_tests.
  - unfold on_message, auto_scroll. split_tests.
  - unfold on_typing. destruct (negb (mounted c)); [auto|].
    destruct (String.eqb _ _) eqn:Hs; [auto|]. simpl.
    rewrite elem_of_union, elem_of_singleton. intros [->|Hin]; [|auto].
    right. exists payload_user, now. apply String.eqb_neq in Hs. auto.
  - unfold handleScroll, auto_scroll. split_tests.
  - unfold animation_frame, auto_scroll. destruct (frames c); split_tests.
  - unfold jump_to_newest. split_tests.
  - auto.
  - rewrite advance_typingUsers. intros [Hin _]. auto.
Qed.

(** No state reached from the mount shows a user called [Anonymous] as
    typing. *)
Lemma anonymous_is_never_shown (evs : list Event) :
  "Anonymous" ∉ typingUsers (run mount evs).
Proof.
  induction evs as [|e evs IH] using rev_ind.
  - simpl. set_solver.
  - unfold run in *. rewrite fold_left_app. simpl. intros Hin.
    destruct (step_typingUsers _ _ _ Hin) as [Hold|(u & now & _ & _ & Hne)];
      [exact (IH Hold)|].
    apply Hne. symmetry. apply listener_name_is_first_render.
Qed.

(** The history half of C9 on the latest client: the sequence is
    replaced at once, and after the next animation frame the view is at
    the bottom with a zero counter. *)
Lemma history_replaces (history : option (list Message)) (c : State) :
  mounted c = true -> scrollRef c = true ->
  let c' := animation_frame (on_message_history history c) in
  messages (on_message_history history c) = default [] history
  /\ messages c' = default [] history
  /\ isAtBottom c' = true /\ unseenCount c' = 0%nat.
Proof.
  intros Hm Hr. unfold on_message_history, animation_frame, auto_scroll.
  rewrite Hm. simpl. rewrite Hr. simpl.
  destruct (isAtBottom c); simpl; rewrite Hr; simpl; auto.
Qed.

(** The earlier client, whose listeners are re-installed when
    [isAtBottom] changes, does count: one more per message while the
    view is away from the bottom. *)
Lemma early_client_counts (msg : Message) (c : EarlyClient.State) :
  EarlyClient.mounted c = true ->
  EarlyClient.isAtBottom c = false ->
  EarlyClient.unseenCount (EarlyClient.on_message msg c)
    = S (EarlyClient.unseenCount c)
  /\ EarlyClient.messages (EarlyClient.on_message msg c)
     = (EarlyClient.messages c ++ [msg])%list.
Proof.
  intros Hm Hb. unfold EarlyClient.on_message, EarlyClient.auto_scroll. simpl.
  rewrite Hm, Hb. simpl. rewrite andb_false_r. auto.
Qed.

(** The earlier client replaces the sequence on [message-history] and
    leaves [isAtBottom] as it was. *)
Lemma early_client_history_keeps_view
    (history : option (list Message)) (c : EarlyClient.State) :
  EarlyClient.mounted c = true ->
  EarlyClient.messages (EarlyClient.on_message_history history c) = default [] history
  /\ EarlyClient.isAtBottom (EarlyClient.on_message_history history c)
     = EarlyClient.isAtBottom c.
Proof.
  intros Hm. unfold EarlyClient.on_message_history, EarlyClient.auto_scroll.
  rewrite Hm. simpl. destruct (EarlyClient.scrollRef c && EarlyClient.isAtBottom c); auto.
Qed.

End UnseenCounter.

(* ===================================================================== *)
(** * The client on concrete event sequences                              *)
(* ===================================================================== *)

Section ClientExamples.

Import Client Scenario.

(** C3. The claim has every subject other than the user's own shown
    as typing for 2000 ms after a typing fact. The user types the name
    Bob; a typing fact then arrives for the remote user [Anonymous]. The
    subject is not the user's name, yet the listener, which compares with
    the name of the first render, takes it for the user's own: the state
    is as before, no timeout is started and [Anonymous] is shown at no
    clock reading. *)
Theorem remote_anonymous_is_not_shown :
  let c := run mount [ Ev_setName "Bob" ] in
  name c = "Bob"
  /\ typing_subject (Some "Anonymous") = "Anonymous"
  /\ typing_subject (Some "Anonymous") <> Js.or_str (name c) "Anonymous"
  /\ self_name c = "Anonymous"
  /\ on_typing (Some "Anonymous") 0 c = c
  /\ timeouts (on_typing (Some "Anonymous") 0 c) = ∅
  /\ (forall t, "Anonymous" ∉ typingUsers (advance t (on_typing (Some "Anonymous") 0 c))).
Proof.
  cbv zeta.
  split; [reflexivity|]. split; [reflexivity|]. split; [discriminate|].
  split; [reflexivity|]. split; [reflexivity|]. split; [reflexivity|].
  intros t. rewrite advance_typingUsers. intros [Hin _]. revert Hin.
  apply (bool_decide_eq_false_1 _). vm_compute. reflexivity.
Qed.

(** The own name the typing listener compares with is the one of the
    first render: typing a name later does not change it. *)
Lemma typing_listener_reads_first_name (s : string) (c : State) :
  self_name (setName s c) = self_name c.
Proof. reflexivity. Qed.

(** One typing event for bob at 0: shown at 1999, not at 2001. A second
    one at 1000: shown at 2000 and at 2999, not at 3001. *)
Lemma typing_window_witness :
  (("bob" ∈ typingUsers (advance 1999 (on_typing (Some "bob") 0 mount)))
   /\ ("bob" ∉ typingUsers (advance 2001 (on_typing (Some "bob") 0 mount))))
  /\
  let c2 := on_typing (Some "bob") 1000 (advance 1000 (on_typing (Some "bob") 0 mount)) in
  ("bob" ∈ typingUsers (advance 2000 c2))
  /\ ("bob" ∈ typingUsers (advance 2999 c2))
  /\ ("bob" ∉ typingUsers (advance 3001 c2)).
Proof.
  assert (typing_subject (Some "bob") <> self_name mount) as Hself by discriminate.
  destruct (typing_window mount (Some "bob") 0 wf_mount eq_refl Hself) as [Hfirst Hsecond].
  split.
  - split; [apply Hfirst; lia | rewrite Hfirst; lia].
  - destruct (Hsecond 1000) as [_ Hwin]. cbv zeta.
    split; [apply Hwin; lia|]. split; [apply Hwin; lia | rewrite Hwin; lia].
Defined.

(** The earlier client starts a timeout per event and clears none: with
    events for bob at 0 and at 1000, the first timeout removes bob at
    2000, so bob is not shown at 2500. *)
Lemma early_client_refresh_not_extended :
  "bob" ∉ EarlyClient.typingUsers
    (EarlyClient.advance 2500
       (EarlyClient.on_typing (Some "bob") 1000
          (EarlyClient.advance 1000
             (EarlyClient.on_typing (Some "bob") 0 EarlyClient.mount)))).
Proof. apply (bool_decide_eq_false_1 _). vm_compute. reflexivity. Qed.

(** C9 on the latest client: the user scrolls up, so [isAtBottom] is
    false; then a message arrives, then two more. The messages are
    appended and the counter stays at zero. *)
Theorem unseen_count_not_incremented :
  let scrolled_up := run mount [ Ev_scroll 1000 0 300 ] in
  let one := run mount [ Ev_scroll 1000 0 300; Ev_message hello ] in
  let three := run mount [ Ev_scroll 1000 0 300;
                           Ev_message hello; Ev_message hello; Ev_message hello ] in
  isAtBottom scrolled_up = false
  /\ isAtBottom one = false /\ messages one = [hello] /\ unseenCount one = 0%nat
  /\ length (messages three) = 3%nat /\ unseenCount three = 0%nat.
Proof. cbv zeta. repeat split; reflexivity. Qed.

End ClientExamples.

(* ===================================================================== *)
(** * Trimming                                                            *)
(* ===================================================================== *)

Section TrimFacts.

Implicit Types (l r q : list ascii).

Lemma skip_space_app l r q :
  Js.skip_space l = Some r -> Js.skip_space (l ++ q) = Some (r ++ q)%list.
Proof.
  unfold Js.skip_space.
  destruct l as [|c0 [|c1 [|c2 r2]]]; simpl; try discriminate.
  - destruct (Js.is_space1 c0); [|discriminate]. intros [= <-]. reflexivity.
  - destruct (Js.is_space1 c0); [intros [= <-]; reflexivity|].
    destruct (Js.is_space2 _ _); [|discriminate]. intros [= <-]. reflexivity.
  - destruct (Js.is_space1 c0); [intros [= <-]; reflexivity|].
    destruct (Js.is_space2 _ _); [intros [= <-]; reflexivity|].
    destruct (Js.is_space3 _ _ _); [|discriminate]. intros [= <-]. reflexivity.
Qed.

Lemma skip_space_shorter l r : Js.skip_space l = Some r -> (length r < length l)%nat.
Proof.
  unfold Js.skip_space.
  destruct l as [|c0 [|c1 [|c2 r2]]]; simpl; try discriminate.
  - destruct (Js.is_space1 c0); [|discriminate]. intros [= <-]. simpl. lia.
  - destruct (Js.is_space1 c0); [intros [= <-]; simpl; lia|].
    destruct (Js.is_space2 _ _); [|discriminate]. intros [= <-]. simpl. lia.
  - destruct (Js.is_space1 c0); [intros [= <-]; simpl; lia|].
    destruct (Js.is_space2 _ _); [intros [= <-]; simpl; lia|].
    destruct (Js.is_space3 _ _ _); [|discriminate]. intros [= <-]. simpl. lia.
Qed.

(** Fuel beyond the length changes nothing. *)
Lemma all_space_enough n m l :
  (length l <= n)%nat -> (length l <= m)%nat -> Js.all_space n l = Js.all_space m l.
Proof.
  revert m l. induction n as [|n IH]; intros m l Hn Hm.
  - destruct l; [destruct m; reflexivity | simpl in Hn; lia].
  - destruct l as [|c r]; [destruct m; reflexivity|].
    destruct m as [|m]; [simpl in Hm; lia|].
    cbn [Js.all_space]. destruct (Js.skip_space (c :: r)) as [r'|] eqn:E; [|reflexivity].
    apply skip_space_shorter in E. simpl in *. apply IH; lia.
Qed.

(** More fuel does no harm. *)
Lemma all_space_mono n m l :
  Js.all_space n l = true -> (n <= m)%nat -> Js.all_space m l = true.
Proof.
  revert m l. induction n as [|n IH]; intros m l Hl Hm.
  - destruct l; [destruct m; reflexivity | discriminate].
  - destruct l as [|c r]; [destruct m; reflexivity|].
    destruct m as [|m]; [lia|]. cbn [Js.all_space] in *.
    destruct (Js.skip_space (c :: r)); [|discriminate]. apply (IH m); [exact Hl | lia].
Qed.

Lemma all_space_app n m l q :
  Js.all_space n l = true -> Js.all_space m q = true ->
  Js.all_space (n + m) (l ++ q) = true.
Proof.
  revert l. induction n as [|n IH]; intros l Hl Hq.
  - destruct l; [exact Hq | discriminate].
  - destruct l as [|c r].
    + simpl app. apply (all_space_mono m); [exact Hq | lia].
    + cbn [Js.all_space] in Hl. destruct (Js.skip_space (c :: r)) as [r'|] eqn:E; [|discriminate].
      change ((c :: r) ++ q)%list with (c :: (r ++ q))%list.
      cbn [Js.all_space Nat.add].
      change (c :: (r ++ q))%list with ((c :: r) ++ q)%list.
      rewrite (skip_space_app _ _ q E). apply IH; assumption.
Qed.

(** White space followed by white space is white space. *)
Lemma blank_bytes_app l q :
  Js.all_space (length l) l = true -> Js.all_space (length q) q = true ->
  Js.all_space (length (l ++ q)) (l ++ q) = true.
Proof. intros Hl Hq. rewrite length_app. apply all_space_app; assumption. Qed.

Lemma trim_start_blank n l : Js.all_space n l = true -> Js.trim_start n l = [].
Proof.
  revert l. induction n as [|n IH]; intros l Hl.
  - destruct l; [reflexivity | discriminate].
  - destruct l as [|c r]; [reflexivity|]. cbn [Js.all_space] in Hl. cbn [Js.trim_start].
    destruct (Js.skip_space (c :: r)); [apply IH, Hl | discriminate].
Qed.

(** What the head loses is white space, and no white space is left at
    the head. *)
Lemma trim_start_spec n l :
  (length l <= n)%nat ->
  exists w, l = (w ++ Js.trim_start n l)%list
            /\ Js.all_space (length w) w = true
            /\ Js.skip_space (Js.trim_start n l) = None.
Proof.
  revert l. induction n as [|n IH]; intros l Hn.
  - destruct l; [|simpl in Hn; lia]. exists []. auto.
  - cbn [Js.trim_start]. destruct (Js.skip_space l) as [r|] eqn:E.
    + pose proof (skip_space_shorter _ _ E) as Hlt.
      destruct (IH r) as (w & Hw & Hb & Hs); [lia|].
      assert (exists w0, l = (w0 ++ r)%list /\ Js.skip_space w0 = Some []) as (w0 & Hl & H0).
      { revert E. unfold Js.skip_space.
        destruct l as [|c0 [|c1 [|c2 r2]]]; simpl; try discriminate.
        - destruct (Js.is_space1 c0) eqn:E0; [|discriminate]. intros [= <-].
          exists [c0]. simpl. rewrite E0. auto.
        - destruct (Js.is_space1 c0) eqn:E0; [intros [= <-]; exists [c0]; simpl; rewrite E0; auto|].
          destruct (Js.is_space2 _ _) eqn:E1; [|discriminate]. intros [= <-].
          exists [c0; c1]. simpl. rewrite E0, E1. auto.
        - destruct (Js.is_space1 c0) eqn:E0; [intros [= <-]; exists [c0]; simpl; rewrite E0; auto|].
          destruct (Js.is_space2 _ _) eqn:E1;
            [intros [= <-]; exists [c0; c1]; simpl; rewrite E0, E1; auto|].
          destruct (Js.is_space3 _ _ _) eqn:E2; [|discriminate]. intros [= <-].
          exists [c0; c1; c2]. simpl. rewrite E0, E1, E2. auto. }
      exists (w0 ++ w)%list. split; [rewrite <- app_assoc, <- Hw; exact Hl|].
      split; [|exact Hs]. apply blank_bytes_app; [|exact Hb].
      destruct w0 as [|c w0']; [reflexivity|].
      cbn [length Js.all_space]. rewrite H0. destruct (length w0'); reflexivity.
    + exists []. auto.
Qed.

(** What the end loses is white space. *)
Lemma trim_end_spec l :
  exists z, l = (Js.trim_end l ++ z)%list /\ Js.all_space (length z) z = true.
Proof.
  induction l as [|c r IH]; [exists []; auto|].
  cbn [Js.trim_end]. destruct (Js.all_space (length (c :: r)) (c :: r)) eqn:E.
  - exists (c :: r). auto.
  - destruct IH as (z & Hz & Hb). exists z. split; [|exact Hb].
    simpl. f_equal. exact Hz.
Qed.

Lemma trim_end_empty l : Js.trim_end l = [] -> Js.all_space (length l) l = true.
Proof.
  destruct l as [|c r]; [reflexivity|]. cbn [Js.trim_end].
  destruct (Js.all_space (length (c :: r)) (c :: r)); [reflexivity | discriminate].
Qed.

Lemma trim_end_idem l : Js.trim_end (Js.trim_end l) = Js.trim_end l.
Proof.
  induction l as [|c r IH]; [reflexivity|].
  cbn [Js.trim_end]. destruct (Js.all_space (length (c :: r)) (c :: r)) eqn:E; [reflexivity|].
  cbn [Js.trim_end].
  destruct (Js.all_space (length (c :: Js.trim_end r)) (c :: Js.trim_end r)) eqn:E';
    [|rewrite IH; reflexivity].
  exfalso. destruct (trim_end_spec r) as (z & Hz & Hb).
  pose proof (blank_bytes_app _ _ E' Hb) as Happ.
  simpl app in Happ. rewrite <- Hz in Happ. congruence.
Qed.

Lemma bytes_of_bytes l : list_ascii_of_string (string_of_list_ascii l) = l.
Proof. apply list_ascii_of_string_of_list_ascii. Qed.

(** White space only trims to the empty string. *)
Lemma trim_blank s : blank s -> Js.trim s = "".
Proof.
  unfold blank, Js.trim. intros Hb. rewrite (trim_start_blank _ _ Hb). reflexivity.
Qed.

(** Only white space trims to the empty string. *)
Lemma trim_empty_blank s : Js.trim s = "" -> blank s.
Proof.
  unfold blank, Js.trim. intros Ht.
  set (l := list_ascii_of_string s) in *.
  assert (Js.trim_end (Js.trim_start (length l) l) = []) as He.
  { rewrite <- (bytes_of_bytes (Js.trim_end _)), Ht. reflexivity. }
  destruct (trim_start_spec (length l) l) as (w & Hw & Hb & _); [lia|].
  rewrite Hw at 1 2. apply blank_bytes_app; [exact Hb | apply trim_end_empty, He].
Qed.

(** Trimming twice is trimming once. *)
Lemma trim_idem s : Js.trim (Js.trim s) = Js.trim s.
Proof.
  unfold Js.trim. set (l := list_ascii_of_string s).
  rewrite bytes_of_bytes.
  set (a := Js.trim_start (length l) l).
  destruct (trim_start_spec (length l) l) as (w & _ & _ & Hs); [lia|]. fold a in Hs.
  destruct (trim_end_spec a) as (z & Hz & _).
  assert (Js.skip_space (Js.trim_end a) = None) as Hnone.
  { destruct (Js.skip_space (Js.trim_end a)) as [r|] eqn:E; [|reflexivity].
    apply (skip_space_app _ _ z) in E. rewrite <- Hz in E. congruence. }
  assert (Js.trim_start (length (Js.trim_end a)) (Js.trim_end a) = Js.trim_end a) as ->.
  { destruct (length (Js.trim_end a)); [reflexivity|]. cbn [Js.trim_start].
    rewrite Hnone. reflexivity. }
  rewrite trim_end_idem. reflexivity.
Qed.

End TrimFacts.

(* ===================================================================== *)
(** * The roster under the listeners                                      *)
(* ===================================================================== *)

Section RosterProperties.
Context `{Externals}.

Import Server.

Lemma Map_get_set_other k k' v m : k' <> k -> Map_get k' (Map_set k v m) = Map_get k' m.
Proof.
  intros Hne. induction m as [|[k0 v0] r IH]; simpl.
  - apply String.eqb_neq in Hne. rewrite String.eqb_sym, Hne. reflexivity.
  - destruct (String.eqb k0 k) eqn:E; simpl.
    + apply String.eqb_eq in E. subst k0.
      assert (String.eqb k k' = false) as -> by (apply String.eqb_neq; congruence).
      reflexivity.
    + destruct (String.eqb k0 k'); [reflexivity | exact IH].
Qed.

Lemma Map_get_delete k m : Map_get k (Map_delete k m) = None.
Proof.
  unfold Map_delete. induction m as [|[k0 v0] r IH]; simpl; [reflexivity|].
  destruct (String.eqb k0 k) eqn:E; simpl; [exact IH|]. rewrite E. exact IH.
Qed.

Lemma Map_get_delete_other k k' m : k' <> k -> Map_get k' (Map_delete k m) = Map_get k' m.
Proof.
  intros Hne. unfold Map_delete. induction m as [|[k0 v0] r IH]; simpl; [reflexivity|].
  destruct (String.eqb k0 k) eqn:E; simpl.
  - apply String.eqb_eq in E. subst k0.
    assert (String.eqb k k' = false) as -> by (apply String.eqb_neq; congruence).
    exact IH.
  - destruct (String.eqb k0 k'); [reflexivity | exact IH].
Qed.

Lemma Map_delete_absent k m : Map_get k m = None -> Map_delete k m = m.
Proof.
  unfold Map_delete. induction m as [|[k0 v0] r IH]; simpl; [reflexivity|].
  destruct (String.eqb k0 k) eqn:E; simpl; [discriminate|].
  intros Hn. f_equal. auto.
Qed.

(** X1. [disconnect]: the connection's entry is gone afterwards, the
    names of the other connections are as before, the collection is not
    touched, and the one emission is the remaining roster, to everyone. A
    second [disconnect] of the same connection, or one of a connection the
    roster does not know, changes no state. *)
Theorem disconnect_removes_entry (st : State) (sid : SocketId) :
  let st' := fst (on_disconnect st sid) in
  Map_get sid (onlineUsers st') = None
  /\ (forall sid', sid' <> sid ->
        Map_get sid' (onlineUsers st') = Map_get sid' (onlineUsers st))
  /\ Messages st' = Messages st
  /\ snd (on_disconnect st sid) = [ (io_emit, room_users (Map_values (onlineUsers st'))) ]
  /\ fst (on_disconnect st' sid) = st'
  /\ (Map_get sid (onlineUsers st) = None -> st' = st).
Proof.
  simpl. split; [apply Map_get_delete|].
  split; [intros sid' Hne; apply Map_get_delete_other, Hne|].
  split; [reflexivity|]. split; [reflexivity|]. split.
  - unfold on_disconnect. simpl. f_equal.
    apply Map_delete_absent, Map_get_delete.
  - intros Hn. unfold on_disconnect. simpl. rewrite (Map_delete_absent _ _ Hn).
    destruct st; reflexivity.
Qed.

(** X2. [set-username] with no name, or with a name of white space
    only, registers the sanitized default name [Anonymous]; in every case
    the other connections keep their names, the collection is not touched
    and the one emission is the new roster, to everyone. *)
Theorem set_username_blank_is_anonymous
    (st : State) (sid : SocketId) (username : option string) :
  (username = None \/ exists s, username = Some s /\ blank s) ->
  let st' := fst (on_set_username st sid username) in
  Map_get sid (onlineUsers st') = Some (sanitizeHtml "Anonymous")
  /\ (forall sid', sid' <> sid ->
        Map_get sid' (onlineUsers st') = Map_get sid' (onlineUsers st))
  /\ Messages st' = Messages st
  /\ snd (on_set_username st sid username)
     = [ (io_emit, room_users (Map_values (onlineUsers st'))) ].
Proof.
  intros Hb. simpl.
  assert (Js.or_default (option_map Js.trim username) "Anonymous" = "Anonymous") as ->.
  { destruct Hb as [-> | (s & -> & Hs)]; [reflexivity|]. simpl.
    rewrite trim_blank by exact Hs. reflexivity. }
  split; [apply Map_get_set|].
  split; [intros sid' Hne; apply Map_get_set_other, Hne|]. auto.
Qed.

(** X3. [message] writes the sender's roster entry before it creates the
    document: whether the message is stored or rejected, the sender is
    registered afterwards under the sanitized name of the payload, and the
    other connections keep their names. *)
Theorem message_always_writes_roster
    (st : State) (sid : SocketId) (msg : MessagePayload) (now : Z) :
  let st' := fst (on_message st sid msg now) in
  Map_get sid (onlineUsers st') = Some (message_username msg)
  /\ forall sid', sid' <> sid ->
       Map_get sid' (onlineUsers st') = Map_get sid' (onlineUsers st).
Proof.
  simpl. unfold on_message. fold (message_username msg).
  destruct (Mongoose.create _ _ _ _) as [[doc coll]|]; simpl;
    (split; [apply Map_get_set | intros sid' Hne; apply Map_get_set_other, Hne]).
Qed.

(** X13. [typing] registers the sender under the sanitized name of the
    payload, [Someone] when the payload has no name or a blank one, leaves
    the collection alone, and after the relay sends the new roster to
    everyone. *)
Theorem typing_renames_connection
    (st : State) (sid : SocketId) (payload_user : option string) (now : Z) :
  let who :=
    sanitizeHtml (Js.or_str (Js.trim (Js.or_default payload_user "Someone")) "Someone") in
  let st' := fst (on_typing st sid payload_user now) in
  Map_get sid (onlineUsers st') = Some who
  /\ Messages st' = Messages st
  /\ snd (on_typing st sid payload_user now)
     = [ (socket_broadcast_emit sid, typing who now);
         (io_emit, room_users (Map_values (onlineUsers st'))) ]
  /\ ((payload_user = None \/ exists s, payload_user = Some s /\ blank s) ->
      who = sanitizeHtml "Someone").
Proof.
  simpl. split; [apply Map_get_set|]. split; [reflexivity|]. split; [reflexivity|].
  intros [-> | (s & -> & Hs)]; [reflexivity|]. simpl.
  destruct s as [|c r]; [reflexivity|]. simpl Js.or_str at 2.
  rewrite trim_blank by exact Hs. reflexivity.
Qed.

End RosterProperties.

(* ===================================================================== *)
(** * The collection under the listeners                                  *)
(* ===================================================================== *)

Section CollectionProperties.
Context `{Externals}.

Import Server.

Lemma findOne_fresh id l :
  Forall (fun m => (_id m < id)%nat) l -> Mongoose.findOne id l = None.
Proof.
  unfold Mongoose.findOne. induction 1 as [|x r Hx _ IH]; simpl; [reflexivity|].
  assert (Nat.eqb (_id x) id = false) as -> by (apply Nat.eqb_neq; lia). exact IH.
Qed.

Lemma findOne_app_r id l l' :
  Mongoose.findOne id l = None ->
  Mongoose.findOne id (l ++ l') = Mongoose.findOne id l'.
Proof.
  unfold Mongoose.findOne. induction l as [|x r IH]; simpl; [reflexivity|].
  destruct (Nat.eqb (_id x) id); [discriminate | exact IH].
Qed.

(** X4. A [message] that passes the schema in a well-formed collection:
    the document gets the next id, the sanitized name and text, the given
    time, and the defaults (not deleted, not edited, no edit time, no
    readers); it goes to everyone, followed by the roster; a lookup by its
    id finds it at once, every earlier lookup answers as before, and the
    collection is still well formed. *)
Theorem stored_message_is_found
    (st : State) (sid : SocketId) (msg : MessagePayload) (now ms : Z) :
  wf_collection (Messages st) ->
  Js.truthy (message_username msg) = true ->
  Js.truthy (message_text msg) = true ->
  message_time (msg_time msg) now = Some ms ->
  let st' := fst (on_message st sid msg now) in
  exists doc,
    snd (on_message st sid msg now)
      = [ (io_emit, message doc); (io_emit, room_users (Map_values (onlineUsers st'))) ]
    /\ doc = mkMessage (Mongoose.next_id (Messages st)) (message_username msg)
               (message_text msg) ms false false None []
    /\ Mongoose.findOne (_id doc) (Mongoose.docs (Messages st')) = Some doc
    /\ (forall id m, Mongoose.findOne id (Mongoose.docs (Messages st)) = Some m ->
                     Mongoose.findOne id (Mongoose.docs (Messages st')) = Some m)
    /\ wf_collection (Messages st').
Proof.
  intros Hwf Hu Ht Hd st'.
  assert (wf_collection (Messages st')) as Hwf'.
  { apply (step_wf st (sid, In_message msg now)), Hwf. }
  revert Hwf'. subst st'. unfold on_message, Mongoose.create.
  fold (message_username msg). fold (message_text msg).
  rewrite Hd. unfold Mongoose.checkRequired. rewrite Hu, Ht. simpl. intros Hwf'.
  eexists. split; [reflexivity|]. split; [reflexivity|]. simpl.
  split; [|split; [|exact Hwf']].
  - rewrite findOne_app_r.
    + unfold Mongoose.findOne. simpl. rewrite Nat.eqb_refl. reflexivity.
    + apply findOne_fresh. destruct Hwf as [_ Hall].
      eapply Forall_impl; [exact Hall|]. simpl. tauto.
  - intros id m Hf. apply findOne_app_l, Hf.
Qed.

(** X5. [delete-message], [edit-message] and [message-read] for one id
    add and remove no document and leave every document with another id
    exactly as it was. *)
Theorem mutations_touch_one_document
    (st : State) (sid : SocketId) (messageId other : nat) :
  other <> messageId ->
  forall st',
    (st' = fst (on_delete_message st sid messageId)
     \/ (exists newText now now_stored now_sent,
           st' = fst (on_edit_message st sid messageId newText now now_stored now_sent))
     \/ st' = fst (on_message_read st sid messageId)) ->
    Mongoose.findOne other (Mongoose.docs (Messages st'))
      = Mongoose.findOne other (Mongoose.docs (Messages st))
    /\ List.map _id (Mongoose.docs (Messages st')) = List.map _id (Mongoose.docs (Messages st))
    /\ onlineUsers st' = onlineUsers st.
Proof.
  intros Hne st' [-> | [(newText & now & n2 & n3 & ->) | ->]].
  - unfold on_delete_message.
    destruct (Mongoose.findOne messageId _); [|auto].
    destruct (String.eqb _ _); [|auto]. simpl.
    rewrite findOne_updateOne_other, map_id_updateOne;
      auto; apply set_deleted_keeps_id.
  - unfold on_edit_message.
    destruct (Mongoose.findOne messageId _) as [m|]; [|auto].
    destruct (String.eqb _ _); [|auto].
    destruct (match editTime m with Some t => _ | None => _ end); [|auto]. simpl.
    rewrite findOne_updateOne_other, map_id_updateOne;
      auto; apply set_edit_keeps_id.
  - unfold on_message_read.
    destruct (Mongoose.findOne messageId _); [|auto].
    destruct (negb _); [|auto]. simpl.
    rewrite findOne_updateOne_other, map_id_updateOne;
      auto; apply addToSet_keeps_id.
Qed.

(** What every update document of the listeners keeps of a message: its
    id, author and time, its readers, and the fact of being deleted. *)
Lemma update_keeps (f : Message -> Message) :
  (f = Mongoose.set_deleted
   \/ (exists s t, f = Mongoose.set_edit s t)
   \/ exists u, f = Mongoose.addToSet_readBy u) ->
  forall m,
    _id (f m) = _id m /\ user (f m) = user m /\ time (f m) = time m
    /\ (forall u, In u (readBy m) -> In u (readBy (f m)))
    /\ (deleted m = true -> deleted (f m) = true).
Proof.
  intros [-> | [(s & t & ->) | (u & ->)]] m; simpl; repeat split; auto.
  intros r Hr. destruct (existsb _ _); [exact Hr | apply in_or_app; auto].
Qed.

Lemma step_keeps (st : State) (ev : SocketId * Inbound) (id : nat) (m : Message) :
  Mongoose.findOne id (Mongoose.docs (Messages st)) = Some m ->
  exists m',
    Mongoose.findOne id (Mongoose.docs (Messages (fst (step st ev)))) = Some m'
    /\ _id m' = _id m /\ user m' = user m /\ time m' = time m
    /\ (forall u, In u (readBy m) -> In u (readBy m')).
Proof.
  intros Hf.
  assert (forall id0 f,
            (f = Mongoose.set_deleted \/ (exists s t, f = Mongoose.set_edit s t)
             \/ exists u, f = Mongoose.addToSet_readBy u) ->
            exists m',
              Mongoose.findOne id (Mongoose.updateOne id0 f (Mongoose.docs (Messages st)))
                = Some m'
              /\ _id m' = _id m /\ user m' = user m /\ time m' = time m
              /\ (forall u, In u (readBy m) -> In u (readBy m'))) as Hupd.
  { intros id0 f Hfk. pose proof (update_keeps f Hfk) as Hk.
    assert (keeps_id f) as Hid by (intros x; apply Hk).
    destruct (Nat.eq_dec id id0) as [<-|Hne].
    - exists (f m). split; [apply findOne_updateOne_same; assumption|].
      destruct (Hk m) as (? & ? & ? & ? & _). auto.
    - exists m. split; [rewrite findOne_updateOne_other; assumption | auto]. }
  assert (exists m', Mongoose.findOne id (Mongoose.docs (Messages st)) = Some m'
                     /\ _id m' = _id m /\ user m' = user m /\ time m' = time m
                     /\ (forall u, In u (readBy m) -> In u (readBy m'))) as Hsame
    by (exists m; auto).
  destruct ev as [sid ev]. unfold step. simpl. destruct ev; simpl; try exact Hsame.
  - unfold on_message, Mongoose.create.
    destruct (message_time _ _); simpl; [|exact Hsame].
    destruct (_ && _); simpl; [|exact Hsame].
    exists m. split; [apply findOne_app_l, Hf | auto].
  - unfold on_delete_message.
    destruct (Mongoose.findOne messageId _); [|exact Hsame].
    destruct (String.eqb _ _); [|exact Hsame]. simpl. apply Hupd. auto.
  - unfold on_edit_message.
    destruct (Mongoose.findOne messageId _) as [m0|]; [|exact Hsame].
    destruct (String.eqb _ _); [|exact Hsame].
    destruct (match editTime m0 with Some t => _ | None => _ end); [|exact Hsame]. simpl.
    apply Hupd. right. left. eauto.
  - unfold on_message_read.
    destruct (Mongoose.findOne messageId _); [|exact Hsame].
    destruct (negb _); [|exact Hsame]. simpl. apply Hupd. right. right. eauto.
Qed.

Lemma run_keeps (evs : list (SocketId * Inbound)) (st : State) (id : nat) (m : Message) :
  Mongoose.findOne id (Mongoose.docs (Messages st)) = Some m ->
  exists m',
    Mongoose.findOne id (Mongoose.docs (Messages (run st evs))) = Some m'
    /\ _id m' = _id m /\ user m' = user m /\ time m' = time m
    /\ (forall u, In u (readBy m) -> In u (readBy m')).
Proof.
  revert st m. induction evs as [|ev evs IH]; intros st m Hf; simpl.
  - exists m. auto.
  - destruct (step_keeps st ev id m Hf) as (m1 & Hf1 & Hi1 & Hu1 & Ht1 & Hr1).
    destruct (IH _ _ Hf1) as (m2 & Hf2 & Hi2 & Hu2 & Ht2 & Hr2).
    exists m2. split; [exact Hf2|]. repeat split; try congruence. auto.
Qed.

(** X6. No sequence of events removes a stored message or changes its
    id, its author or its creation time. *)
Theorem author_and_time_never_change
    (st : State) (evs : list (SocketId * Inbound)) (id : nat) (m : Message) :
  Mongoose.findOne id (Mongoose.docs (Messages st)) = Some m ->
  exists m',
    Mongoose.findOne id (Mongoose.docs (Messages (run st evs))) = Some m'
    /\ _id m' = _id m /\ user m' = user m /\ time m' = time m.
Proof.
  intros Hf. destruct (run_keeps evs st id m Hf) as (m' & ? & ? & ? & ? & _).
  exists m'. auto.
Qed.

(** X9. No sequence of events takes a reader off a message: a name once
    in [readBy] stays there. *)
Theorem readers_are_never_removed
    (st : State) (evs : list (SocketId * Inbound)) (id : nat) (m : Message)
    (reader : string) :
  Mongoose.findOne id (Mongoose.docs (Messages st)) = Some m ->
  In reader (readBy m) ->
  exists m',
    Mongoose.findOne id (Mongoose.docs (Messages (run st evs))) = Some m'
    /\ In reader (readBy m').
Proof.
  intros Hf Hr. destruct (run_keeps evs st id m Hf) as (m' & ? & _ & _ & _ & Hin).
  exists m'. auto.
Qed.

End CollectionProperties.

Section MutationProperties.
Context `{Externals}.

Import Server.

Lemma updateOne_fixed id f l m :
  Mongoose.findOne id l = Some m -> f m = m -> Mongoose.updateOne id f l = l.
Proof.
  unfold Mongoose.findOne. induction l as [|x r IH]; simpl; [reflexivity|].
  destruct (Nat.eqb (_id x) id).
  - intros [= ->] ->. reflexivity.
  - intros Hf Hm. f_equal. auto.
Qed.

(** X7. [delete-message] does not look at [deleted]: when the author
    deletes a message that is deleted already, the state stays as it is
    and the id is broadcast to everyone once more. *)
Theorem redelete_broadcasts_again
    (st : State) (sid : SocketId) (messageId : nat) (m : Message) :
  Mongoose.findOne messageId (Mongoose.docs (Messages st)) = Some m ->
  user m = username_of st sid ->
  deleted m = true ->
  on_delete_message st sid messageId = (st, [ (io_emit, delete_message messageId) ]).
Proof.
  intros Hf Hu Hd. unfold on_delete_message. rewrite Hf.
  apply String.eqb_eq in Hu. rewrite Hu.
  rewrite (updateOne_fixed _ _ _ m Hf).
  - destruct st as [users [docs next]]. reflexivity.
  - destruct m. simpl in Hd. subst. reflexivity.
Qed.

(** X8. With a clock that does not run backwards between the test and
    the update, an edit that goes through on a message edited before moves
    [editTime] forward, by more than five minutes. *)
Theorem edit_time_moves_forward
    (st : State) (sid : SocketId) (messageId : nat) (m : Message)
    (newText : string) (now now_stored now_sent previous : Z) :
  Mongoose.findOne messageId (Mongoose.docs (Messages st)) = Some m ->
  editTime m = Some previous ->
  now <= now_stored ->
  snd (on_edit_message st sid messageId newText now now_stored now_sent) <> [] ->
  exists m',
    Mongoose.findOne messageId
      (Mongoose.docs
         (Messages (fst (on_edit_message st sid messageId newText now now_stored now_sent))))
      = Some m'
    /\ editTime m' = Some now_stored
    /\ previous + 5 * 60 * 1000 < now_stored.
Proof.
  intros Hf Hp Hclock. unfold on_edit_message. rewrite Hf, Hp.
  destruct (String.eqb _ _); [|intros Hne; contradiction].
  destruct (previous <? now - 5 * 60 * 1000) eqn:E; [|intros Hne; contradiction].
  intros _. simpl. apply Z.ltb_lt in E.
  exists (Mongoose.set_edit (sanitizeHtml newText) now_stored m).
  split; [apply findOne_updateOne_same; [apply set_edit_keeps_id | exact Hf]|].
  split; [reflexivity | lia].
Qed.

(** X10. In every state the server reaches from its start, a message
    found by id lists no reader twice, has an id below the next one to be
    handed out, and is the only document with that id. *)
Theorem reached_messages_are_well_formed
    (evs : list (SocketId * Inbound)) (id : nat) (m : Message) :
  Mongoose.findOne id (Mongoose.docs (Messages (run initial evs))) = Some m ->
  NoDup (readBy m)
  /\ (_id m < Mongoose.next_id (Messages (run initial evs)))%nat
  /\ forall m', In m' (Mongoose.docs (Messages (run initial evs))) -> _id m' = id -> m' = m.
Proof.
  intros Hf. destruct (reachable_wf evs) as [Hnd Hall].
  apply findOne_Some in Hf as [Hid Hin].
  rewrite Forall_forall in Hall.
  destruct (Hall m) as [Hlt Hr]; [apply list_elem_of_In, Hin|].
  split; [exact Hr|]. split; [exact Hlt|].
  intros m' Hin' Hid'. eapply unique_by_id; eauto. congruence.
Qed.

End MutationProperties.

(* ===================================================================== *)
(** * The active-message query                                            *)
(* ===================================================================== *)

Section QueryProperties.
Context `{Externals}.

Import Mongoose.

Lemma sort_by_time_length l : length (sort_by_time l) = length l.
Proof. apply Permutation_length, sort_by_time_permutes. Qed.



(** X12. When the limit is at least the number of messages that are not
    deleted, the query lists every one of them. *)
Theorem find_active_complete (limit : nat) (l : list Message) (x : Message) :
  (length (List.filter (fun m => negb (deleted m)) l) <= limit)%nat ->
  In x l -> deleted x = false ->
  In x (find_active limit l).
Proof.
  intros Hlen Hin Hd. unfold find_active.
  rewrite take_ge by (rewrite sort_by_time_length; exact Hlen).
  apply sort_by_time_In, filter_In. split; [exact Hin|]. rewrite Hd. reflexivity.
Qed.



End QueryProperties.

(* ===================================================================== *)
(** * The [message] listener of the earlier server revision               *)
(* ===================================================================== *)

Section EarlyServerProperties.
Context `{Externals}.

Lemma or_str_truthy s d : Js.truthy d = true -> Js.truthy (Js.or_str s d) = true.
Proof. intros Hd. unfold Js.or_str. destruct (Js.truthy s) eqn:E; assumption. Qed.

(** X15. The earlier server's [message] listener rejects a message
    exactly when its text is missing or empty or its time does not parse.
    A rejected message is not stored and not broadcast: the sender alone
    is sent one [message-error]. An accepted message is appended under the
    next id with the text as it came, and goes to everyone. *)
Theorem early_message_error_to_sender
    (coll : Mongoose.Collection) (sid : Server.SocketId)
    (msg : Server.MessagePayload) (now : Z) :
  let text_ := Js.or_default (Server.msg_text msg) "" in
  let time_ := Server.message_time (Server.msg_time msg) now in
  ((text_ = "" \/ time_ = None) ->
     EarlyServer.on_message coll sid msg now
       = (coll, [ (Server.socket_emit sid,
                   EarlyServer.message_error "Failed to save message") ]))
  /\ (forall ms, text_ <> "" -> time_ = Some ms ->
        exists doc,
          EarlyServer.on_message coll sid msg now
            = (Mongoose.mkCollection (Mongoose.docs coll ++ [doc])
                 (S (Mongoose.next_id coll)),
               [ (Server.io_emit, EarlyServer.message doc) ])
          /\ _id doc = Mongoose.next_id coll /\ text doc = text_ /\ time doc = ms
          /\ deleted doc = false)
  /\ forall live c,
       In c (Server.recipients (Server.socket_emit sid) live) -> c = sid.
Proof.
  intros text_ time_. split; [|split].
  - intros Hrej. unfold EarlyServer.on_message, Mongoose.create.
    fold text_. fold time_.
    destruct time_ as [ms|]; [|reflexivity].
    destruct Hrej as [-> | Hn]; [|discriminate]. simpl.
    rewrite andb_false_r. reflexivity.
  - intros ms Ht Hms. unfold EarlyServer.on_message, Mongoose.create.
    fold text_. fold time_. rewrite Hms.
    unfold Mongoose.checkRequired. rewrite or_str_truthy by reflexivity.
    assert (Js.truthy text_ = true) as -> by (destruct text_; [congruence | reflexivity]).
    simpl. eexists. split; [reflexivity|]. simpl. auto.
  - intros live c. apply recipients_socket_emit.
Qed.

End EarlyServerProperties.

(* ===================================================================== *)
(** * The typing tables of the client                                     *)
(* ===================================================================== *)

Section TypingTables.

Import Client.

Implicit Types (c : State) (w : string) (t : Z).

Lemma timeouts_fold_timers_Some (l : list (nat * (Z * string))) c w (id : nat) :
  typingTimers (foldr (fun e acc => typing_timeout (snd (snd e)) acc) c l) !! w = Some id ->
  typingTimers c !! w = Some id /\ ~ In w (List.map (fun e => snd (snd e)) l).
Proof.
  induction l as [|e l IH]; simpl; [tauto|].
  intros [Hne Hl]%lookup_delete_Some. destruct (IH Hl) as [? ?].
  split; [assumption|]. intros [?|?]; [congruence | tauto].
Qed.

Lemma advance_typingTimers t c w (id : nat) :
  typingTimers (advance t c) !! w = Some id ->
  typingTimers c !! w = Some id
  /\ ~ exists (id' : nat) (d : Z), timeouts c !! id' = Some (d, w) /\ d <= t.
Proof.
  unfold advance. intros Hl. apply timeouts_fold_timers_Some in Hl as [Hl Hn].
  rewrite due_subject in Hn. auto.
Qed.

Lemma coherent_mount : coherent mount.
Proof.
  split; [apply wf_mount|]. split.
  - intros w t Hl. simpl in Hl. rewrite lookup_empty in Hl. discriminate.
  - intros w Hin. simpl in Hin. set_solver.
Qed.

Lemma coherent_advance t c : coherent c -> coherent (advance t c).
Proof.
  intros (Hwf & Hmap & Hshown). split; [apply wf_advance, Hwf|]. split.
  - intros w id Hl. apply advance_typingTimers in Hl as [Hl Hnd].
    destruct (Hmap _ _ Hl) as (d & Hd). exists d. apply advance_timeouts.
    split; [exact Hd|]. destruct (Z_lt_dec t d); [assumption|].
    exfalso. apply Hnd. exists id, d. split; [exact Hd | lia].
  - intros w Hin. apply advance_typingUsers in Hin as [Hin Hnd].
    destruct (Hshown _ Hin) as (id & d & Hd). exists id, d. apply advance_timeouts.
    split; [exact Hd|]. destruct (Z_lt_dec t d); [assumption|].
    exfalso. apply Hnd. exists id, d. split; [exact Hd | lia].
Qed.

(** A typing event keeps the pending timeouts of the other subjects. *)
Lemma on_typing_keeps_others payload_user now c (id : nat) (d : Z) w :
  coherent c -> w <> typing_subject payload_user ->
  timeouts c !! id = Some (d, w) ->
  timeouts (on_typing payload_user now c) !! id = Some (d, w).
Proof.
  intros (Hwf & Hmap & _) Hw Hl. unfold on_typing.
  destruct (negb (mounted c)); [exact Hl|].
  destruct (String.eqb _ _); [exact Hl|]. simpl.
  destruct (Hwf _ _ _ Hl) as [_ Hlt].
  rewrite lookup_insert_ne by lia.
  destruct (typingTimers c !! typing_subject payload_user) as [old|] eqn:E; [|exact Hl].
  rewrite lookup_delete_ne; [exact Hl|].
  intros ->. destruct (Hmap _ _ E) as (d' & Hd'). congruence.
Qed.

Lemma coherent_on_typing payload_user now c :
  coherent c -> coherent (on_typing payload_user now c).
Proof.
  intros Hco. pose proof Hco as (Hwf & Hmap & Hshown).
  split; [apply wf_on_typing, Hwf|].
  destruct (mounted c) eqn:Hm; [|unfold on_typing; rewrite Hm; simpl; auto].
  destruct (String.eqb (typing_subject payload_user) (self_name c)) eqn:Hs;
    [unfold on_typing; rewrite Hm; simpl; rewrite Hs; auto|].
  assert (timeouts (on_typing payload_user now c) !! next_timeout c
          = Some (now + 2000, typing_subject payload_user)) as Hnew.
  { unfold on_typing. rewrite Hm. simpl. rewrite Hs. simpl. apply lookup_insert_eq. }
  assert (typingTimers (on_typing payload_user now c)
          = <[typing_subject payload_user := next_timeout c]> (typingTimers c)) as Htm.
  { unfold on_typing. rewrite Hm. simpl. rewrite Hs. reflexivity. }
  assert (typingUsers (on_typing payload_user now c)
          = {[typing_subject payload_user]} ∪ typingUsers c) as Hus.
  { unfold on_typing. rewrite Hm. simpl. rewrite Hs. reflexivity. }
  split.
  - intros w id. rewrite Htm.
    destruct (decide (w = typing_subject payload_user)) as [->|Hne].
    + rewrite lookup_insert_eq. intros [= <-]. eauto.
    + rewrite lookup_insert_ne by congruence. intros Hl.
      destruct (Hmap _ _ Hl) as (d & Hd). exists d.
      apply on_typing_keeps_others; assumption.
  - intros w. rewrite Hus.
    destruct (decide (w = typing_subject payload_user)) as [->|Hne]; [eauto|].
    intros [Hin| Hin']%elem_of_union; [apply elem_of_singleton in Hin; contradiction|].
    destruct (Hshown _ Hin') as (id & d & Hd). exists id, d.
    apply on_typing_keeps_others; assumption.
Qed.

Lemma coherent_same_tables c c' :
  timeouts c' = timeouts c -> typingTimers c' = typingTimers c ->
  next_timeout c' = next_timeout c -> typingUsers c' = typingUsers c ->
  coherent c -> coherent c'.
Proof.
  intros Ht Hm Hn Hu (Hwf & Hmap & Hshown).
  split; [eapply wf_same_timers; eauto|].
  rewrite Ht, Hm, Hu. auto.
Qed.

Lemma coherent_step c (e : Event) : coherent c -> coherent (step c e).
Proof.
  intros Hco. destruct e; simpl.
  - apply (coherent_same_tables c); [| | | |exact Hco];
      unfold on_message_history, auto_scroll; split_tests.
  - apply (coherent_same_tables c); [| | | |exact Hco];
      unfold on_message, auto_scroll; split_tests.
  - apply coherent_on_typing, Hco.
  - apply (coherent_same_tables c); [| | | |exact Hco];
      unfold handleScroll, auto_scroll; split_tests.
  - apply (coherent_same_tables c); [| | | |exact Hco];
      unfold animation_frame, auto_scroll; destruct (frames c); split_tests.
  - apply (coherent_same_tables c); [| | | |exact Hco]; unfold jump_to_newest; split_tests.
  - exact Hco.
  - apply coherent_advance, Hco.
Qed.

(** Every state the component reaches from its mount has coherent
    typing tables. *)
Lemma coherent_reachable (evs : list Event) : coherent (run mount evs).
Proof.
  unfold run. generalize coherent_mount. generalize mount.
  induction evs as [|e evs IH]; intros c Hco; simpl; [exact Hco|].
  apply IH, coherent_step, Hco.
Qed.

Lemma foldr_max_ge (l : list Z) (x : Z) : In x l -> x <= foldr Z.max 0 l.
Proof.
  induction l as [|y r IH]; simpl; [tauto|]. intros [->|Hin]; [lia|].
  specialize (IH Hin). lia.
Qed.

(** X16. Nobody is shown as typing for ever: in every state the
    component reaches, everybody shown has a pending timeout, so there is a
    clock reading from which on, if no further event arrives, the typing
    set is empty. *)
Theorem typing_always_clears (evs : list Event) :
  exists t, forall t', t <= t' -> typingUsers (advance t' (run mount evs)) = ∅.
Proof.
  destruct (coherent_reachable evs) as (_ & _ & Hshown).
  set (c := run mount evs) in *.
  exists (foldr Z.max 0 (List.map (fun e : nat * (Z * string) => fst (snd e))
                           (map_to_list (timeouts c)))).
  intros t' Hle. apply elem_of_equiv_empty_L. intros w Hin.
  apply advance_typingUsers in Hin as [Hin Hnd].
  destruct (Hshown _ Hin) as (id & d & Hd). apply Hnd. exists id, d.
  split; [exact Hd|]. etransitivity; [|exact Hle].
  apply foldr_max_ge, in_map_iff. exists (id, (d, w)). split; [reflexivity|].
  apply list_elem_of_In, elem_of_map_to_list, Hd.
Qed.

(** X17. The subjects are independent: a typing event for one subject
    changes for no other subject whether, or until when, it is shown as
    typing. *)
Theorem typing_subjects_independent
    (c : State) (payload_user : option string) (t0 t : Z) (other : string) :
  coherent c ->
  other <> typing_subject payload_user ->
  other ∈ typingUsers (advance t (on_typing payload_user t0 c))
  <-> other ∈ typingUsers (advance t c).
Proof.
  intros Hco Hne. pose proof Hco as (Hwf & _ & _).
  rewrite !advance_typingUsers.
  destruct (mounted c) eqn:Hm; [|unfold on_typing; rewrite Hm; simpl; tauto].
  destruct (String.eqb (typing_subject payload_user) (self_name c)) eqn:Hs;
    [unfold on_typing; rewrite Hm; simpl; rewrite Hs; tauto|].
  assert (other ∈ typingUsers (on_typing payload_user t0 c) <-> other ∈ typingUsers c)
    as ->.
  { unfold on_typing. rewrite Hm. simpl. rewrite Hs. simpl.
    rewrite elem_of_union, elem_of_singleton. tauto. }
  apply String.eqb_neq in Hs.
  split; intros [Hin Hnd]; (split; [exact Hin|]); intros (id & d & Hd & Hle); apply Hnd;
    exists id, d; (split; [|exact Hle]).
  - apply on_typing_keeps_others; assumption.
  - destruct (on_typing_timeouts _ _ _ _ _ _ Hwf Hm Hs Hd) as [(_ & _ & ->)|(_ & _ & Hc)];
      [congruence | exact Hc].
Qed.

Lemma lookup_foldr_delete (l : list (string * nat)) (m : gmap nat (Z * string)) (i : nat) :
  In i (List.map snd l) ->
  foldr (fun e acc => delete (snd e) acc) m l !! i = None.
Proof.
  induction l as [|e l IH]; simpl; [tauto|].
  intros Hin. destruct (decide (snd e = i)) as [<-|Hne].
  - apply lookup_delete_eq.
  - rewrite lookup_delete_ne by exact Hne. apply IH. destruct Hin; [congruence | assumption].
Qed.

(** X18. The cleanup of the socket effect: in a well-formed state it
    leaves no pending timeout and an empty timer map; afterwards no socket
    event changes the component, and the passing of time changes nothing
    of the typing set. *)
Theorem unmount_silences_listeners (c : State) :
  wf c ->
  timeouts (unmount c) = ∅
  /\ typingTimers (unmount c) = ∅
  /\ (forall e, socket_event e -> step (unmount c) e = unmount c)
  /\ forall t, typingUsers (advance t (unmount c)) = typingUsers c.
Proof.
  intros Hwf.
  assert (timeouts (unmount c) = ∅) as Hto.
  { apply map_eq. intros i. rewrite lookup_empty. simpl.
    destruct (timeouts c !! i) as [[d w]|] eqn:E.
    - destruct (Hwf _ _ _ E) as [Htm _]. apply lookup_foldr_delete.
      apply in_map_iff. exists (w, i). split; [reflexivity|].
      apply list_elem_of_In, elem_of_map_to_list, Htm.
    - clear Hwf. induction (map_to_list (typingTimers c)) as [|e l IH]; simpl; [exact E|].
      destruct (decide (snd e = i)) as [<-|Hne];
        [apply lookup_delete_eq | rewrite lookup_delete_ne by exact Hne; exact IH]. }
  split; [exact Hto|]. split; [reflexivity|]. split.
  - intros [] Hev; simpl in Hev; try contradiction; reflexivity.
  - intros t. apply set_eq. intros w. rewrite advance_typingUsers, Hto. simpl.
    split; [tauto|]. intros Hin. split; [exact Hin|].
    intros (id & d & Hl & _). rewrite lookup_empty in Hl. discriminate.
Qed.

End TypingTables.

(* ===================================================================== *)
(** * The client's message list and its send path                         *)
(* ===================================================================== *)

Section MessageStream.
Context `{Externals}.

Lemma on_message_appends (m : Message) (c : Client.State) :
  Client.mounted c = true ->
  Client.messages (Client.on_message m c) = (Client.messages c ++ [m])%list
  /\ Client.mounted (Client.on_message m c) = true.
Proof.
  intros Hm. unfold Client.on_message, Client.auto_scroll. rewrite Hm. split_tests.
Qed.

Lemma receive_all_appends (ms : list Message) (c : Client.State) :
  Client.mounted c = true ->
  Client.messages (Client.receive_all ms c) = (Client.messages c ++ ms)%list.
Proof.
  unfold Client.receive_all. revert c.
  induction ms as [|m ms IH]; intros c Hm; simpl; [rewrite app_nil_r; reflexivity|].
  destruct (on_message_appends m c Hm) as [Ha Hm'].
  rewrite IH by exact Hm'. rewrite Ha, <- app_assoc. reflexivity.
Qed.

(** X19. A history snapshot followed by live messages: the visible
    sequence is the snapshot followed by the live messages in the order
    they arrived, whatever was shown before. *)
Theorem history_then_live_messages
    (history : option (list Message)) (ms : list Message) (c : Client.State) :
  Client.mounted c = true ->
  Client.messages (Client.receive_all ms (Client.on_message_history history c))
  = (default [] history ++ ms)%list.
Proof.
  intros Hm.
  assert (Client.messages (Client.on_message_history history c) = default [] history
          /\ Client.mounted (Client.on_message_history history c) = true) as [Hh Hm'].
  { unfold Client.on_message_history, Client.auto_scroll. rewrite Hm. split_tests. }
  rewrite receive_all_appends by exact Hm'. rewrite Hh. reflexivity.
Qed.

Lemma or_str_trim_fixed name_ :
  Js.trim (Js.or_str (Js.trim name_) "Anonymous") = Js.or_str (Js.trim name_) "Anonymous".
Proof.
  unfold Js.or_str. destruct (Js.truthy (Js.trim name_)); [apply trim_idem | reflexivity].
Qed.

Lemma truthy_not_empty s : Js.truthy s = true <-> s <> "".
Proof. destruct s; simpl; split; congruence. Qed.

(** X20. [sendMessage] sends nothing for a text of white space only.
    For any other text it builds one message, emitted when the socket is
    connected and kept as a local echo when it is not: its name and text
    are never empty and carry no white space at either end, and a blank
    name is sent as [Anonymous]. *)
Theorem sent_message_is_never_blank
    (connected : bool) (name_ text_ iso_now local_id : string) :
  (blank text_ ->
     Client.sendMessage connected name_ text_ iso_now local_id = Client.not_sent)
  /\ (~ blank text_ ->
        exists u t,
          Client.sendMessage connected name_ text_ iso_now local_id
            = (if connected
               then Client.emitted (Server.mkPayload (Some u) (Some t) (Some iso_now))
               else Client.local_echo
                      (Server.mkPayload (Some u) (Some t) (Some iso_now)) local_id)
          /\ u <> "" /\ t <> "" /\ Js.trim u = u /\ Js.trim t = t
          /\ (blank name_ -> u = "Anonymous")).
Proof.
  split.
  - intros Hb. unfold Client.sendMessage. rewrite trim_blank by exact Hb. reflexivity.
  - intros Hnb. exists (Js.or_str (Js.trim name_) "Anonymous"), (Js.trim text_).
    assert (Js.truthy (Js.trim text_) = true) as Ht.
    { destruct (Js.trim text_) eqn:E; [|reflexivity].
      exfalso. apply Hnb, trim_empty_blank, E. }
    unfold Client.sendMessage. rewrite Ht. simpl.
    split; [destruct connected; reflexivity|].
    split; [apply truthy_not_empty, or_str_truthy; reflexivity|].
    split; [apply truthy_not_empty, Ht|].
    split; [apply or_str_trim_fixed|]. split; [apply trim_idem|].
    intros Hb. rewrite trim_blank by exact Hb. reflexivity.
Qed.

(** X21. From the composer to the collection: when the client emits a
    message and its name and text survive the sanitizer and its timestamp
    parses, the server stores and broadcasts one document whose author is
    the sanitized trimmed name ([Anonymous] for a blank name), whose text is
    the sanitized trimmed text and whose time is the client's timestamp. *)
Theorem sent_message_is_stored
    (st : Server.State) (sid : Server.SocketId)
    (name_ text_ iso_now local_id : string) (msg : Server.MessagePayload) (now ms : Z) :
  Client.sendMessage true name_ text_ iso_now local_id = Client.emitted msg ->
  Js.truthy iso_now = true -> Date_parse iso_now = Some ms ->
  Js.truthy (sanitizeHtml (Js.or_str (Js.trim name_) "Anonymous")) = true ->
  Js.truthy (sanitizeHtml (Js.trim text_)) = true ->
  exists doc,
    appends st (Server.on_message st sid msg now) doc
    /\ user doc = sanitizeHtml (Js.or_str (Js.trim name_) "Anonymous")
    /\ text doc = sanitizeHtml (Js.trim text_)
    /\ time doc = ms /\ deleted doc = false.
Proof.
  intros Hsend Hiso Hparse Hu Ht. unfold Client.sendMessage in Hsend.
  destruct (negb (Js.truthy (Js.trim text_))) eqn:E; [discriminate|].
  injection Hsend as <-.
  apply negb_false_iff in E.
  assert (message_username
            (Server.mkPayload (Some (Js.or_str (Js.trim name_) "Anonymous"))
               (Some (Js.trim text_)) (Some iso_now))
          = sanitizeHtml (Js.or_str (Js.trim name_) "Anonymous")) as Hname.
  { unfold message_username. simpl. f_equal.
    assert (Js.truthy (Js.or_str (Js.trim name_) "Anonymous") = true) as Hn
      by (apply or_str_truthy; reflexivity).
    unfold Js.or_str at 2. rewrite Hn. rewrite or_str_trim_fixed.
    unfold Js.or_str at 1. rewrite Hn. reflexivity. }
  assert (message_text
            (Server.mkPayload (Some (Js.or_str (Js.trim name_) "Anonymous"))
               (Some (Js.trim text_)) (Some iso_now))
          = sanitizeHtml (Js.trim text_)) as Htext.
  { unfold message_text. simpl. unfold Js.or_str. rewrite E. reflexivity. }
  destruct (on_message_created st sid
              (Server.mkPayload (Some (Js.or_str (Js.trim name_) "Anonymous"))
                 (Some (Js.trim text_)) (Some iso_now)) now ms)
    as (doc & Happ & Htime & Huser & Htxt & Hdel).
  - rewrite Hname. exact Hu.
  - rewrite Htext. exact Ht.
  - simpl. rewrite Hiso. exact Hparse.
  - exists doc. rewrite Huser, Htxt, Hname, Htext. auto.
Qed.

(** X23. The typing ping, from the composer to the relay: the client
    emits none while it is offline or the text is blank; otherwise it
    emits its trimmed name, [Anonymous] for a blank one, and the server
    relays that name, sanitized and with the server's clock, to every
    connection but the sender's. *)
Theorem typing_ping_is_relayed
    (connected : bool) (name_ text_ : string)
    (st : Server.State) (sid : Server.SocketId) (now : Z) :
  ((connected = false \/ blank text_) -> Client.typing_effect connected name_ text_ = None)
  /\ (connected = true -> ~ blank text_ ->
        let u := Js.or_str (Js.trim name_) "Anonymous" in
        Client.typing_effect connected name_ text_ = Some u
        /\ u <> ""
        /\ List.filter Server.is_typing (snd (Server.on_typing st sid (Some u) now))
           = [ (Server.socket_broadcast_emit sid, Server.typing (sanitizeHtml u) now) ]
        /\ forall live c,
             In c (Server.recipients (Server.socket_broadcast_emit sid) live)
             <-> In c live /\ c <> sid).
Proof.
  split.
  - intros [-> | Hb]; [reflexivity|]. unfold Client.typing_effect.
    rewrite trim_blank by exact Hb. destruct connected; reflexivity.
  - intros -> Hnb u.
    assert (Js.truthy u = true) as Hu by (apply or_str_truthy; reflexivity).
    split; [|split; [apply truthy_not_empty, Hu|split]].
    + unfold Client.typing_effect. simpl.
      destruct (Js.trim text_) eqn:E; [|reflexivity].
      exfalso. apply Hnb, trim_empty_blank, E.
    + simpl. do 3 f_equal.
      unfold Js.or_str at 2. rewrite Hu. subst u. rewrite or_str_trim_fixed.
      unfold Js.or_str at 1. fold (Js.or_str (Js.trim name_) "Anonymous").
      rewrite Hu. reflexivity.
    + intros live c. apply recipients_broadcast.
Qed.

(** X22. The earlier client counts: while the view is away from the
    bottom every live message is appended and raises the counter by one;
    the pill's click, or a scroll back to the bottom, sets it to zero. *)
Theorem early_client_counts_every_message
    (ms : list Message) (c : EarlyClient.State) :
  EarlyClient.mounted c = true ->
  EarlyClient.isAtBottom c = false ->
  let c' := EarlyClient.receive_all ms c in
  EarlyClient.unseenCount c' = (EarlyClient.unseenCount c + length ms)%nat
  /\ EarlyClient.messages c' = (EarlyClient.messages c ++ ms)%list
  /\ EarlyClient.isAtBottom c' = false
  /\ (EarlyClient.scrollRef c = true ->
      EarlyClient.unseenCount (EarlyClient.jump_to_newest c') = 0%nat)
  /\ forall scrollHeight scrollTop clientHeight,
       scrollHeight - scrollTop - clientHeight < 60 ->
       EarlyClient.unseenCount
         (EarlyClient.handleScroll scrollHeight scrollTop clientHeight c') = 0%nat
       /\ EarlyClient.isAtBottom
            (EarlyClient.handleScroll scrollHeight scrollTop clientHeight c') = true.
Proof.
  intros Hm Hb c'.
  assert (EarlyClient.unseenCount c' = (EarlyClient.unseenCount c + length ms)%nat
          /\ EarlyClient.messages c' = (EarlyClient.messages c ++ ms)%list
          /\ EarlyClient.isAtBottom c' = false
          /\ EarlyClient.scrollRef c' = EarlyClient.scrollRef c) as (Hn & Hl & Hb' & Hr).
  { subst c'. unfold EarlyClient.receive_all. revert c Hm Hb.
    induction ms as [|m ms IH]; intros c Hm Hb; simpl.
    - rewrite app_nil_r. repeat split; auto; lia.
    - destruct (early_client_counts m c Hm Hb) as [Hc Ha].
      assert (EarlyClient.mounted (EarlyClient.on_message m c) = true
              /\ EarlyClient.isAtBottom (EarlyClient.on_message m c) = false
              /\ EarlyClient.scrollRef (EarlyClient.on_message m c)
                 = EarlyClient.scrollRef c) as (Hm1 & Hb1 & Hr1).
      { unfold EarlyClient.on_message, EarlyClient.auto_scroll. rewrite Hm. simpl.
        rewrite Hb, andb_false_r. simpl. auto. }
      destruct (IH _ Hm1 Hb1) as (Hn & Hl & Hb' & Hr).
      rewrite Hn, Hl, Hc, Ha, Hr, Hr1, <- app_assoc. repeat split; auto; lia. }
  split; [exact Hn|]. split; [exact Hl|]. split; [exact Hb'|]. split.
  - intros Hs. unfold EarlyClient.jump_to_newest. rewrite Hr, Hs. reflexivity.
  - intros sh st ch Hlt. apply Z.ltb_lt in Hlt.
    unfold EarlyClient.handleScroll, EarlyClient.auto_scroll. simpl. rewrite Hlt. simpl.
    destruct (EarlyClient.scrollRef c'); simpl; auto.
Qed.

End MessageStream.

(* ===================================================================== *)
(** * The further properties on concrete inputs                           *)
(* ===================================================================== *)

Section FurtherExamples.

Import Scenario.

#[local] Existing Instance Standin.externals.

(** [trim] strips the white space of ECMAScript at both ends, beyond
    ASCII too, and nothing else: a zero width space stays. A text of one
    no-break space is not sent and starts no typing ping. *)
Lemma trim_strips_unicode_white_space :
  Js.trim (String.append nbsp (String.append " hi there" (String.append em_space bom)))
    = "hi there"
  /\ Js.trim (String.append zwsp " hi") = String.append zwsp " hi"
  /\ blank (String.append nbsp em_space)
  /\ Client.sendMessage true "Bob" nbsp "1970-01-01T00:00:01.000Z" "local-1"
     = Client.not_sent
  /\ Client.typing_effect true "Bob" nbsp = None.
Proof. repeat split; reflexivity. Qed.

(** A name of a space, a no-break space and a tab is registered as
    [Anonymous]. *)
Lemma set_username_blank_is_anonymous_witness :
  Server.Map_get "a"
    (Server.onlineUsers
       (fst (Server.on_set_username (room hello) "a"
               (Some (String " " (String.append nbsp (String "009" "")))))))
  = Some "Anonymous".
Proof.
  destruct (set_username_blank_is_anonymous (room hello) "a"
              (Some (String " " (String.append nbsp (String "009" "")))))
    as [Hname _].
  - right. exists (String " " (String.append nbsp (String "009" ""))).
    split; reflexivity.
  - exact Hname.
Defined.

(** Bob's message into the room with Alice's. *)
Lemma stored_message_is_found_witness :
  exists doc,
    snd (Server.on_message (room hello) "b" (Server.mkPayload (Some "Bob") (Some "yo") None) 7000)
      = [ (Server.io_emit, Server.message doc);
          (Server.io_emit, Server.room_users ["Alice"; "Bob"]) ]
    /\ _id doc = 1%nat.
Proof.
  destruct (stored_message_is_found (room hello) "b"
              (Server.mkPayload (Some "Bob") (Some "yo") None) 7000 7000)
    as (doc & Hout & Hdoc & _).
  - split; simpl; [apply NoDup_singleton|].
    apply Forall_singleton. split; [cbv; lia | apply NoDup_nil_2].
  - reflexivity.
  - reflexivity.
  - reflexivity.
  - exists doc. split; [exact Hout | rewrite Hdoc; reflexivity].
Defined.

(** Two messages; a read of the first leaves the second alone. *)
Lemma mutations_touch_one_document_witness :
  let st := Server.mkState [("a", "Alice"); ("b", "Bob")]
              (Mongoose.mkCollection
                 [hello; mkMessage 1 "Bob" "yo" 2000 false false None []] 2) in
  Mongoose.findOne 1
    (Mongoose.docs (Server.Messages (fst (Server.on_message_read st "b" 0))))
  = Mongoose.findOne 1 (Mongoose.docs (Server.Messages st)).
Proof.
  intros st.
  apply (mutations_touch_one_document st "b" 0 1); [discriminate|]. right. right. reflexivity.
Defined.

(** Alice's message through an edit, a read and a delete. *)
Lemma author_and_time_never_change_witness :
  exists m',
    Mongoose.findOne 0
      (Mongoose.docs
         (Server.Messages
            (Server.run (room hello)
               [ ("a", Server.In_edit_message 0 "hey" 9000 9000 9000);
                 ("b", Server.In_message_read 0);
                 ("a", Server.In_delete_message 0) ])))
    = Some m'
    /\ _id m' = 0%nat /\ user m' = "Alice" /\ time m' = 1000.
Proof.
  apply (author_and_time_never_change (room hello) _ 0 hello). reflexivity.
Defined.

(** Bob stays a reader of Alice's message through an edit and a delete. *)
Lemma readers_are_never_removed_witness :
  exists m',
    Mongoose.findOne 0
      (Mongoose.docs
         (Server.Messages
            (Server.run (room (mkMessage 0 "Alice" "hi" 1000 false false None ["Bob"]))
               [ ("a", Server.In_edit_message 0 "hey" 9000 9000 9000);
                 ("a", Server.In_delete_message 0) ])))
    = Some m'
    /\ In "Bob" (readBy m').
Proof.
  apply (readers_are_never_removed
           (room (mkMessage 0 "Alice" "hi" 1000 false false None ["Bob"])) _ 0
           (mkMessage 0 "Alice" "hi" 1000 false false None ["Bob"]) "Bob").
  - reflexivity.
  - left. reflexivity.
Defined.

(** Alice deletes her deleted message again. *)
Lemma redelete_broadcasts_again_witness :
  Server.on_delete_message (room (mkMessage 0 "Alice" "hi" 1000 true false None [])) "a" 0
  = (room (mkMessage 0 "Alice" "hi" 1000 true false None []),
     [ (Server.io_emit, Server.delete_message 0%nat) ]).
Proof.
  apply (redelete_broadcasts_again _ "a" 0 (mkMessage 0 "Alice" "hi" 1000 true false None []));
    reflexivity.
Defined.

(** An edit 301 seconds after the last one. *)
Lemma edit_time_moves_forward_witness :
  exists m',
    Mongoose.findOne 0
      (Mongoose.docs
         (Server.Messages
            (fst (Server.on_edit_message (room edited_at_0) "a" 0 "hey" 301000 301005 301009))))
    = Some m'
    /\ editTime m' = Some 301005 /\ 0 + 5 * 60 * 1000 < 301005.
Proof.
  apply (edit_time_moves_forward (room edited_at_0) "a" 0 edited_at_0 "hey"
           301000 301005 301009 0);
    [reflexivity | reflexivity | lia | discriminate].
Defined.

(** The one message of a server that has seen a connection, a message
    and two reads by the same connection. *)
Lemma reached_messages_are_well_formed_witness :
  let evs := [ ("c", Server.In_connection);
               ("c", Server.In_message (payload None) 5000);
               ("c", Server.In_message_read 0);
               ("c", Server.In_message_read 0) ] in
  let m := mkMessage 0 "Alice" "hi" 5000 false false None ["Alice"] in
  Mongoose.findOne 0 (Mongoose.docs (Server.Messages (Server.run Server.initial evs)))
  = Some m
  /\ NoDup (readBy m)
  /\ (_id m < Mongoose.next_id (Server.Messages (Server.run Server.initial evs)))%nat.
Proof.
  intros evs m.
  assert (Mongoose.findOne 0 (Mongoose.docs (Server.Messages (Server.run Server.initial evs)))
          = Some m) as Hf by reflexivity.
  split; [exact Hf|].
  destruct (reached_messages_are_well_formed evs 0 m Hf) as (Hnd & Hlt & _).
  split; [exact Hnd | exact Hlt].
Defined.

(** Two messages, one of them deleted, and a limit of one. *)
Lemma find_active_complete_witness :
  In hello
    (Mongoose.find_active 1 [mkMessage 1 "Bob" "yo" 500 true false None []; hello]).
Proof.
  apply find_active_complete; [cbv; lia | right; left; reflexivity | reflexivity].
Defined.


(** A typing event for carol at 1000 does not touch bob, typing since 0. *)
Lemma typing_subjects_independent_witness :
  "bob" ∈ Client.typingUsers
            (Client.advance 1500
               (Client.on_typing (Some "carol") 1000
                  (Client.on_typing (Some "bob") 0 Client.mount)))
  <-> "bob" ∈ Client.typingUsers
                (Client.advance 1500 (Client.on_typing (Some "bob") 0 Client.mount)).
Proof.
  apply (typing_subjects_independent (Client.on_typing (Some "bob") 0 Client.mount)
           (Some "carol") 1000 1500 "bob").
  - apply coherent_on_typing, coherent_mount.
  - intros Heq. vm_compute in Heq. discriminate Heq.
Defined.

(** The component is unmounted while bob is shown as typing. *)
Lemma unmount_silences_listeners_witness :
  Client.timeouts (Client.unmount (Client.on_typing (Some "bob") 0 Client.mount)) = ∅.
Proof.
  apply (unmount_silences_listeners (Client.on_typing (Some "bob") 0 Client.mount)).
  apply wf_on_typing, wf_mount.
Defined.

(** A snapshot of one message and two live ones. *)
Lemma history_then_live_messages_witness :
  Client.messages
    (Client.receive_all [edited_at_0; hello]
       (Client.on_message_history (Some [hello]) Client.mount))
  = [hello; edited_at_0; hello].
Proof.
  apply (history_then_live_messages (Some [hello]) [edited_at_0; hello] Client.mount).
  reflexivity.
Defined.

(** Alice sends " hi " from the composer into an empty server. *)
Lemma sent_message_is_stored_witness :
  exists doc,
    appends Server.initial
      (Server.on_message Server.initial "c"
         (Server.mkPayload (Some "Alice") (Some "hi") (Some "1970-01-01T00:00:01.000Z"))
         5000)
      doc
    /\ user doc = "Alice" /\ text doc = "hi" /\ time doc = 1000 /\ deleted doc = false.
Proof.
  exact (sent_message_is_stored Server.initial "c" "Alice" " hi "
           "1970-01-01T00:00:01.000Z" "local-5000"
           (Server.mkPayload (Some "Alice") (Some "hi") (Some "1970-01-01T00:00:01.000Z"))
           5000 1000 eq_refl eq_refl eq_refl eq_refl eq_refl).
Defined.

(** A user whose name is one no-break space sends "hi" followed by an em
    space: the document is stored under [Anonymous] with the text "hi". *)
Lemma no_break_space_name_is_anonymous :
  Client.sendMessage true nbsp (String.append "hi" em_space)
    "1970-01-01T00:00:01.000Z" "local-5000"
  = Client.emitted
      (Server.mkPayload (Some "Anonymous") (Some "hi") (Some "1970-01-01T00:00:01.000Z"))
  /\ fst (Server.on_message Server.initial "c"
            (Server.mkPayload (Some "Anonymous") (Some "hi")
               (Some "1970-01-01T00:00:01.000Z")) 5000)
     = Server.mkState [("c", "Anonymous")]
         (Mongoose.mkCollection [mkMessage 0 "Anonymous" "hi" 1000 false false None []] 1).
Proof. split; reflexivity. Qed.

(** Alice, online, types "h". *)
Lemma typing_ping_is_relayed_witness :
  Client.typing_effect true "Alice" "h" = Some "Alice"
  /\ List.filter Server.is_typing (snd (Server.on_typing (room hello) "a" (Some "Alice") 42))
     = [ (Server.socket_broadcast_emit "a", Server.typing "Alice" 42) ].
Proof.
  destruct (typing_ping_is_relayed true "Alice" "h" (room hello) "a" 42) as [_ Hon].
  destruct Hon as (He & _ & Hr & _); [reflexivity | intros Hb; discriminate Hb |].
  split; [exact He | exact Hr].
Defined.

(** Three messages while the earlier client is scrolled up. *)
Lemma early_client_counts_every_message_witness :
  EarlyClient.unseenCount
    (EarlyClient.receive_all [hello; hello; hello]
       (EarlyClient.handleScroll 1000 0 300 EarlyClient.mount))
  = 3%nat.
Proof.
  apply (early_client_counts_every_message [hello; hello; hello]
           (EarlyClient.handleScroll 1000 0 300 EarlyClient.mount)); reflexivity.
Defined.

End FurtherExamples.
